(** * Intel 8080 (KR580VM80A) core: a shallow embedding of [i8080.c]

    The C file keeps one file-scope [cpu] structure, a pseudo register [M]
    and talks to the host through the functions of [i8080_hal.h].  Here the
    structure is a record, the host is an abstract world [W] with the HAL
    operations as a type class, and every C function becomes a function
    from machine to machine.  The scratch statics [work8], [work16],
    [work32], [index], [carry] and [add] are written before they are read in
    every instruction, so they are local bindings. *)

From Stdlib Require Import ZArith List Lia Bool.
Import ListNotations.
Local Open Scope Z_scope.

(** ** C integer conversions and truth values *)

(** Conversion to [unsigned char], [unsigned short] and [unsigned long]. *)
Definition uns8 (v : Z) : Z := Z.land v 0xff.
Definition uns16 (v : Z) : Z := Z.land v 0xffff.
Definition uns32 (v : Z) : Z := Z.land v 0xffffffff.

(** The [int] a C comparison yields, the truth of an [int] used as a
    condition, and the operator [!]. *)
Definition c_bool (b : bool) : Z := if b then 1 else 0.
Definition truth (v : Z) : bool := negb (v =? 0).
Definition c_not (v : Z) : Z := c_bool (v =? 0).
(** [(v != 0)] *)
Definition ne0 (v : Z) : Z := c_bool (truth v).

(** ** The register file *)

(** [union { struct { uns8 l, h; } b; uns16 w; }] on a little-endian host:
    the two bytes are stored, the word is read from them and written into
    them. *)
Record reg_pair : Type := mk_reg_pair { b_l : Z; b_h : Z }.

Definition get_w (p : reg_pair) : Z := Z.lor (Z.shiftl (b_h p) 8) (b_l p).
Definition set_w (v : Z) : reg_pair :=
  {| b_l := uns8 v; b_h := uns8 (Z.shiftr v 8) |}.

Record flag_reg : Type := mk_flag_reg {
  carry_flag : Z;
  unused1 : Z;
  parity_flag : Z;
  unused3 : Z;
  half_carry_flag : Z;
  unused5 : Z;
  zero_flag : Z;
  sign_flag : Z
}.

Record i8080 : Type := mk_i8080 {
  f : flag_reg;
  af : reg_pair; bc : reg_pair; de : reg_pair; hl : reg_pair;
  sp : reg_pair; pc : reg_pair;
  iff : Z;
  last_pc : Z
}.

(** The whole mutable state an instruction can touch: the [cpu] structure,
    the global byte [M] that stands at index 6 of [REG], and the host. *)
Record machine (W : Type) : Type := mk_machine {
  cpu : i8080;
  M : Z;
  host : W
}.
Arguments mk_machine {W} _ _ _.
Arguments cpu {W} _.
Arguments M {W} _.
Arguments host {W} _.

(** Storage of static duration starts as zeros. *)
Definition zero_pair : reg_pair := mk_reg_pair 0 0.
Definition zero_cpu : i8080 :=
  mk_i8080 (mk_flag_reg 0 0 0 0 0 0 0 0)
           zero_pair zero_pair zero_pair zero_pair zero_pair zero_pair 0 0.

(** ** Field updates *)

Definition with_f (v : flag_reg) (c : i8080) : i8080 :=
  mk_i8080 v (af c) (bc c) (de c) (hl c) (sp c) (pc c) (iff c) (last_pc c).
Definition with_af (v : reg_pair) (c : i8080) : i8080 :=
  mk_i8080 (f c) v (bc c) (de c) (hl c) (sp c) (pc c) (iff c) (last_pc c).
Definition with_bc (v : reg_pair) (c : i8080) : i8080 :=
  mk_i8080 (f c) (af c) v (de c) (hl c) (sp c) (pc c) (iff c) (last_pc c).
Definition with_de (v : reg_pair) (c : i8080) : i8080 :=
  mk_i8080 (f c) (af c) (bc c) v (hl c) (sp c) (pc c) (iff c) (last_pc c).
Definition with_hl (v : reg_pair) (c : i8080) : i8080 :=
  mk_i8080 (f c) (af c) (bc c) (de c) v (sp c) (pc c) (iff c) (last_pc c).
Definition with_sp (v : reg_pair) (c : i8080) : i8080 :=
  mk_i8080 (f c) (af c) (bc c) (de c) (hl c) v (pc c) (iff c) (last_pc c).
Definition with_pc (v : reg_pair) (c : i8080) : i8080 :=
  mk_i8080 (f c) (af c) (bc c) (de c) (hl c) (sp c) v (iff c) (last_pc c).
Definition with_iff (v : Z) (c : i8080) : i8080 :=
  mk_i8080 (f c) (af c) (bc c) (de c) (hl c) (sp c) (pc c) v (last_pc c).

Definition with_l (v : Z) (p : reg_pair) : reg_pair := mk_reg_pair (uns8 v) (b_h p).
Definition with_h (v : Z) (p : reg_pair) : reg_pair := mk_reg_pair (b_l p) (uns8 v).

Definition with_carry (v : Z) (r : flag_reg) : flag_reg :=
  mk_flag_reg (uns8 v) (unused1 r) (parity_flag r) (unused3 r)
              (half_carry_flag r) (unused5 r) (zero_flag r) (sign_flag r).
Definition with_unused1 (v : Z) (r : flag_reg) : flag_reg :=
  mk_flag_reg (carry_flag r) (uns8 v) (parity_flag r) (unused3 r)
              (half_carry_flag r) (unused5 r) (zero_flag r) (sign_flag r).
Definition with_parity (v : Z) (r : flag_reg) : flag_reg :=
  mk_flag_reg (carry_flag r) (unused1 r) (uns8 v) (unused3 r)
              (half_carry_flag r) (unused5 r) (zero_flag r) (sign_flag r).
Definition with_unused3 (v : Z) (r : flag_reg) : flag_reg :=
  mk_flag_reg (carry_flag r) (unused1 r) (parity_flag r) (uns8 v)
              (half_carry_flag r) (unused5 r) (zero_flag r) (sign_flag r).
Definition with_half_carry (v : Z) (r : flag_reg) : flag_reg :=
  mk_flag_reg (carry_flag r) (unused1 r) (parity_flag r) (unused3 r)
              (uns8 v) (unused5 r) (zero_flag r) (sign_flag r).
Definition with_unused5 (v : Z) (r : flag_reg) : flag_reg :=
  mk_flag_reg (carry_flag r) (unused1 r) (parity_flag r) (unused3 r)
              (half_carry_flag r) (uns8 v) (zero_flag r) (sign_flag r).
Definition with_zero (v : Z) (r : flag_reg) : flag_reg :=
  mk_flag_reg (carry_flag r) (unused1 r) (parity_flag r) (unused3 r)
              (half_carry_flag r) (unused5 r) (uns8 v) (sign_flag r).
Definition with_sign (v : Z) (r : flag_reg) : flag_reg :=
  mk_flag_reg (carry_flag r) (unused1 r) (parity_flag r) (unused3 r)
              (half_carry_flag r) (unused5 r) (zero_flag r) (uns8 v).

Definition on_cpu {W} (g : i8080 -> i8080) (s : machine W) : machine W :=
  mk_machine (g (cpu s)) (M s) (host s).
Definition on_flags {W} (g : flag_reg -> flag_reg) (s : machine W) : machine W :=
  on_cpu (fun c => with_f (g (f c)) c) s.
Definition on_host {W} (g : W -> W) (s : machine W) : machine W :=
  mk_machine (cpu s) (M s) (g (host s)).

(** ** The register macros, as a reader and a writer each.

    [A] is [cpu.af.b.h], [F] is [cpu.af.b.l], [BC] is [cpu.bc.w], and so on.
    Every writer converts to the width of the C lvalue. *)
Module Reg.
Section Accessors.
Context {W : Type}.
Implicit Type s : machine W.

Definition AF s := get_w (af (cpu s)).
Definition BC s := get_w (bc (cpu s)).
Definition DE s := get_w (de (cpu s)).
Definition HL s := get_w (hl (cpu s)).
Definition SP s := get_w (sp (cpu s)).
Definition PC s := get_w (pc (cpu s)).
Definition A s := b_h (af (cpu s)).
Definition F s := b_l (af (cpu s)).
Definition B s := b_h (bc (cpu s)).
Definition C s := b_l (bc (cpu s)).
Definition D s := b_h (de (cpu s)).
Definition E s := b_l (de (cpu s)).
Definition H s := b_h (hl (cpu s)).
Definition L s := b_l (hl (cpu s)).
Definition IFF s := iff (cpu s).

Definition set_AF v s := on_cpu (with_af (set_w v)) s.
Definition set_BC v s := on_cpu (with_bc (set_w v)) s.
Definition set_DE v s := on_cpu (with_de (set_w v)) s.
Definition set_HL v s := on_cpu (with_hl (set_w v)) s.
Definition set_SP v s := on_cpu (with_sp (set_w v)) s.
Definition set_PC v s := on_cpu (with_pc (set_w v)) s.
Definition set_A v s := on_cpu (fun c => with_af (with_h v (af c)) c) s.
Definition set_F v s := on_cpu (fun c => with_af (with_l v (af c)) c) s.
Definition set_B v s := on_cpu (fun c => with_bc (with_h v (bc c)) c) s.
Definition set_C v s := on_cpu (fun c => with_bc (with_l v (bc c)) c) s.
Definition set_D v s := on_cpu (fun c => with_de (with_h v (de c)) c) s.
Definition set_E v s := on_cpu (fun c => with_de (with_l v (de c)) c) s.
Definition set_H v s := on_cpu (fun c => with_hl (with_h v (hl c)) c) s.
Definition set_L v s := on_cpu (fun c => with_hl (with_l v (hl c)) c) s.
Definition set_M v s := mk_machine (cpu s) (uns8 v) (host s).
(** [IFF] is an [uns16]. *)
Definition set_IFF v s := on_cpu (with_iff (uns16 v)) s.

Definition C_FLAG s := carry_flag (f (cpu s)).
Definition P_FLAG s := parity_flag (f (cpu s)).
Definition H_FLAG s := half_carry_flag (f (cpu s)).
Definition Z_FLAG s := zero_flag (f (cpu s)).
Definition S_FLAG s := sign_flag (f (cpu s)).
Definition UN1_FLAG s := unused1 (f (cpu s)).
Definition UN3_FLAG s := unused3 (f (cpu s)).
Definition UN5_FLAG s := unused5 (f (cpu s)).

Definition set_C_FLAG v s := on_flags (with_carry v) s.
Definition set_P_FLAG v s := on_flags (with_parity v) s.
Definition set_H_FLAG v s := on_flags (with_half_carry v) s.
Definition set_Z_FLAG v s := on_flags (with_zero v) s.
Definition set_S_FLAG v s := on_flags (with_sign v) s.
Definition set_UN1_FLAG v s := on_flags (with_unused1 v) s.
Definition set_UN3_FLAG v s := on_flags (with_unused3 v) s.
Definition set_UN5_FLAG v s := on_flags (with_unused5 v) s.
End Accessors.
End Reg.

(** ** The host abstraction layer

    [i8080_hal.h] declares the functions the host supplies; each takes and
    returns [int].  The host's memory and devices are a world [W]: reads
    leave it alone, writes, port output and the interrupt notification
    change it, port input both answers and changes it. *)
Class i8080_hal (W : Type) : Type := {
  i8080_hal_memory_read_byte : W -> Z -> Z;
  i8080_hal_memory_read_word : W -> Z -> Z;
  i8080_hal_memory_write_byte : W -> Z -> Z -> W;
  i8080_hal_memory_write_word : W -> Z -> Z -> W;
  i8080_hal_io_input : W -> Z -> Z * W;
  i8080_hal_io_output : W -> Z -> Z -> W;
  i8080_hal_iff : W -> Z -> W
}.

(** ** Tables and helpers of the core *)

Definition i8080_getParity (val : Z) : Z :=
  let val := Z.lxor val (Z.shiftr val 4) in
  let val := Z.land val 0xf in
  c_not (Z.land (Z.shiftr 0x6996 val) 1).

Definition PARITY (reg : Z) : Z := i8080_getParity reg.

Definition half_carry_table : list Z := [0; 0; 1; 0; 1; 0; 1; 1].
Definition sub_half_carry_table : list Z := [0; 1; 1; 1; 0; 0; 0; 1].

(** [table[i]] for an index the code has masked with 7. *)
Definition at_index (table : list Z) (i : Z) : Z := nth (Z.to_nat i) table 0.

Definition DEST (x : Z) : Z := Z.land (Z.shiftr x 3) 7.
Definition SOURCE (x : Z) : Z := Z.land x 7.
Definition CONDITION (x : Z) : Z := Z.land (Z.shiftr x 3) 7.
Definition VECTOR (x : Z) : Z := Z.land (Z.shiftr x 3) 7.
Definition RP (x : Z) : Z := Z.land (Z.shiftr x 4) 3.

(** The index the four arithmetic macros and [CMP] build from bit 3 (and
    bit 7) of the accumulator, the operand and the 16-bit result. *)
Definition hc_index (a val work16 : Z) : Z :=
  Z.lor (Z.lor (Z.shiftr (Z.land a 0x88) 1) (Z.shiftr (Z.land val 0x88) 2))
        (Z.shiftr (Z.land work16 0x88) 3).

Section Core.
Context {W : Type} {HAL : i8080_hal W}.
Import Reg.
Implicit Type s : machine W.

Definition RD_BYTE s (addr : Z) : Z := i8080_hal_memory_read_byte (host s) addr.
Definition RD_WORD s (addr : Z) : Z := i8080_hal_memory_read_word (host s) addr.
Definition WR_BYTE (addr value : Z) s : machine W :=
  on_host (fun w => i8080_hal_memory_write_byte w addr value) s.
Definition WR_WORD (addr value : Z) s : machine W :=
  on_host (fun w => i8080_hal_memory_write_word w addr value) s.

(** [REG[] = { &B, &C, &D, &E, &H, &L, &M, &A }] and
    [PAIR[] = { &BC, &DE, &HL, &SP }], read and written through. *)
Definition REG (i : Z) s : Z :=
  match i with
  | 0 => B s | 1 => C s | 2 => D s | 3 => E s
  | 4 => H s | 5 => L s | 6 => M s | 7 => A s
  | _ => 0
  end.
Definition set_REG (i : Z) (v : Z) s : machine W :=
  match i with
  | 0 => set_B v s | 1 => set_C v s | 2 => set_D v s | 3 => set_E v s
  | 4 => set_H v s | 5 => set_L v s | 6 => set_M v s | 7 => set_A v s
  | _ => s
  end.
Definition PAIR (i : Z) s : Z :=
  match i with
  | 0 => BC s | 1 => DE s | 2 => HL s | 3 => SP s
  | _ => 0
  end.
Definition set_PAIR (i : Z) (v : Z) s : machine W :=
  match i with
  | 0 => set_BC v s | 1 => set_DE v s | 2 => set_HL v s | 3 => set_SP v s
  | _ => s
  end.

(** [POP(reg)] assigns before it moves [SP]; [PUSH(reg)] moves [SP] before
    it evaluates [reg].  The lvalue is a writer, the rvalue a reader. *)
Definition POP (set_reg : Z -> machine W -> machine W) s : machine W :=
  let s := set_reg (RD_WORD s (SP s)) s in
  set_SP (SP s + 2) s.
Definition PUSH (reg : machine W -> Z) s : machine W :=
  let s := set_SP (SP s - 2) s in
  WR_WORD (SP s) (reg s) s.
Definition RET s : machine W := POP set_PC s.

(** [INR(reg)] and [DCR(reg)]: the new value of the lvalue and the
    machine with the flags set from it. *)
Definition INR (reg : Z) s : Z * machine W :=
  let reg := uns8 (reg + 1) in
  let s := set_S_FLAG (ne0 (Z.land reg 0x80)) s in
  let s := set_Z_FLAG (c_bool (reg =? 0)) s in
  let s := set_H_FLAG (c_bool (Z.land reg 0x0f =? 0)) s in
  let s := set_P_FLAG (PARITY reg) s in
  (reg, s).

Definition DCR (reg : Z) s : Z * machine W :=
  let reg := uns8 (reg - 1) in
  let s := set_S_FLAG (ne0 (Z.land reg 0x80)) s in
  let s := set_Z_FLAG (c_bool (reg =? 0)) s in
  let s := set_H_FLAG (c_not (c_bool (Z.land reg 0x0f =? 0x0f))) s in
  let s := set_P_FLAG (PARITY reg) s in
  (reg, s).

Definition ADD (val : Z) s : machine W :=
  let work16 := uns16 (A s + val) in
  let index := hc_index (A s) val work16 in
  let s := set_A (Z.land work16 0xff) s in
  let s := set_S_FLAG (ne0 (Z.land (A s) 0x80)) s in
  let s := set_Z_FLAG (c_bool (A s =? 0)) s in
  let s := set_H_FLAG (at_index half_carry_table (Z.land index 0x7)) s in
  let s := set_P_FLAG (PARITY (A s)) s in
  set_C_FLAG (ne0 (Z.land work16 0x0100)) s.

Definition ADC (val : Z) s : machine W :=
  let work16 := uns16 (A s + val + C_FLAG s) in
  let index := hc_index (A s) val work16 in
  let s := set_A (Z.land work16 0xff) s in
  let s := set_S_FLAG (ne0 (Z.land (A s) 0x80)) s in
  let s := set_Z_FLAG (c_bool (A s =? 0)) s in
  let s := set_H_FLAG (at_index half_carry_table (Z.land index 0x7)) s in
  let s := set_P_FLAG (PARITY (A s)) s in
  set_C_FLAG (ne0 (Z.land work16 0x0100)) s.

Definition SUB (val : Z) s : machine W :=
  let work16 := uns16 (A s - val) in
  let index := hc_index (A s) val work16 in
  let s := set_A (Z.land work16 0xff) s in
  let s := set_S_FLAG (ne0 (Z.land (A s) 0x80)) s in
  let s := set_Z_FLAG (c_bool (A s =? 0)) s in
  let s := set_H_FLAG (c_not (at_index sub_half_carry_table (Z.land index 0x7))) s in
  let s := set_P_FLAG (PARITY (A s)) s in
  set_C_FLAG (ne0 (Z.land work16 0x0100)) s.

Definition SBB (val : Z) s : machine W :=
  let work16 := uns16 (A s - val - C_FLAG s) in
  let index := hc_index (A s) val work16 in
  let s := set_A (Z.land work16 0xff) s in
  let s := set_S_FLAG (ne0 (Z.land (A s) 0x80)) s in
  let s := set_Z_FLAG (c_bool (A s =? 0)) s in
  let s := set_H_FLAG (c_not (at_index sub_half_carry_table (Z.land index 0x7))) s in
  let s := set_P_FLAG (PARITY (A s)) s in
  set_C_FLAG (ne0 (Z.land work16 0x0100)) s.

Definition CMP (val : Z) s : machine W :=
  let work16 := uns16 (A s - val) in
  let index := hc_index (A s) val work16 in
  let s := set_S_FLAG (ne0 (Z.land work16 0x80)) s in
  let s := set_Z_FLAG (c_bool (Z.land work16 0xff =? 0)) s in
  let s := set_H_FLAG (c_not (at_index sub_half_carry_table (Z.land index 0x7))) s in
  let s := set_C_FLAG (ne0 (Z.land work16 0x0100)) s in
  set_P_FLAG (PARITY (Z.land work16 0xff)) s.

Definition ANA (val : Z) s : machine W :=
  let s := set_H_FLAG (ne0 (Z.land (Z.lor (A s) val) 0x08)) s in
  let s := set_A (Z.land (A s) val) s in
  let s := set_S_FLAG (ne0 (Z.land (A s) 0x80)) s in
  let s := set_Z_FLAG (c_bool (A s =? 0)) s in
  let s := set_P_FLAG (PARITY (A s)) s in
  set_C_FLAG 0 s.

Definition XRA (val : Z) s : machine W :=
  let s := set_A (Z.lxor (A s) val) s in
  let s := set_S_FLAG (ne0 (Z.land (A s) 0x80)) s in
  let s := set_Z_FLAG (c_bool (A s =? 0)) s in
  let s := set_H_FLAG 0 s in
  let s := set_P_FLAG (PARITY (A s)) s in
  set_C_FLAG 0 s.

Definition ORA (val : Z) s : machine W :=
  let s := set_A (Z.lor (A s) val) s in
  let s := set_S_FLAG (ne0 (Z.land (A s) 0x80)) s in
  let s := set_Z_FLAG (c_bool (A s =? 0)) s in
  let s := set_H_FLAG 0 s in
  let s := set_P_FLAG (PARITY (A s)) s in
  set_C_FLAG 0 s.

Definition DAD (reg : Z) s : machine W :=
  let work32 := uns32 (HL s + reg) in
  let s := set_HL (Z.land work32 0xffff) s in
  set_C_FLAG (ne0 (Z.land work32 0x10000)) s.

Definition CALL s : machine W :=
  let s := PUSH (fun s => PC s + 2) s in
  set_PC (RD_WORD s (PC s)) s.

Definition RST (addr : Z) s : machine W :=
  let s := PUSH PC s in
  set_PC addr s.

Definition i8080_init s : machine W :=
  let s := set_C_FLAG 0 s in
  let s := set_S_FLAG 0 s in
  let s := set_Z_FLAG 0 s in
  let s := set_H_FLAG 0 s in
  let s := set_P_FLAG 0 s in
  let s := set_UN1_FLAG 1 s in
  let s := set_UN3_FLAG 0 s in
  let s := set_UN5_FLAG 0 s in
  set_PC 0xF800 s.

Definition F_CARRY : Z := 0x01.
Definition F_UN1 : Z := 0x02.
Definition F_PARITY : Z := 0x04.
Definition F_UN3 : Z := 0x08.
Definition F_HCARRY : Z := 0x10.
Definition F_UN5 : Z := 0x20.
Definition F_ZERO : Z := 0x40.
Definition F_NEG : Z := 0x80.

(** [if (flag) F |= bit; else F &= ~bit;] *)
Definition store_bit (flag bit : Z) s : machine W :=
  if truth flag then set_F (Z.lor (F s) bit) s
  else set_F (Z.land (F s) (Z.lnot bit)) s.

Definition i8080_store_flags s : machine W :=
  let s := store_bit (S_FLAG s) F_NEG s in
  let s := store_bit (Z_FLAG s) F_ZERO s in
  let s := store_bit (H_FLAG s) F_HCARRY s in
  let s := store_bit (P_FLAG s) F_PARITY s in
  let s := store_bit (C_FLAG s) F_CARRY s in
  let s := set_F (Z.lor (F s) F_UN1) s in
  let s := set_F (Z.land (F s) (Z.lnot F_UN3)) s in
  set_F (Z.land (F s) (Z.lnot F_UN5)) s.

Definition i8080_retrieve_flags s : machine W :=
  let s := set_S_FLAG (if truth (Z.land (F s) F_NEG) then 1 else 0) s in
  let s := set_Z_FLAG (if truth (Z.land (F s) F_ZERO) then 1 else 0) s in
  let s := set_H_FLAG (if truth (Z.land (F s) F_HCARRY) then 1 else 0) s in
  let s := set_P_FLAG (if truth (Z.land (F s) F_PARITY) then 1 else 0) s in
  set_C_FLAG (if truth (Z.land (F s) F_CARRY) then 1 else 0) s.

(** The result is an [uns8]. *)
Definition i8080_checkCondition (c : Z) s : Z :=
  match c with
  | 0 => uns8 (c_not (Z_FLAG s))
  | 1 => uns8 (Z_FLAG s)
  | 2 => uns8 (c_not (C_FLAG s))
  | 3 => uns8 (C_FLAG s)
  | 4 => uns8 (c_not (P_FLAG s))
  | 5 => uns8 (P_FLAG s)
  | 6 => uns8 (c_not (S_FLAG s))
  | 7 => uns8 (S_FLAG s)
  | _ => 0
  end.

(** [RD_BYTE(PC++)]: the byte at the old [PC], and [PC] moved on. *)
Definition RD_BYTE_PC_inc s : Z * machine W :=
  (RD_BYTE s (PC s), set_PC (PC s + 1) s).

(** The first [switch] of [i8080_execute]: the opcodes matched one by
    one.  It yields [cpu_cycles], which stays 0 when no case matches. *)
Definition execute_exact (opcode : Z) s : Z * machine W :=
  match opcode with
  | 0x00 | 0x08 | 0x10 | 0x18 | 0x20 | 0x28 | 0x30 | 0x38 => (* nop *)
      (4, s)
  | 0x07 => (* rlc *)
      let s := set_C_FLAG (ne0 (Z.land (A s) 0x80)) s in
      let s := set_A (Z.lor (Z.shiftl (A s) 1) (C_FLAG s)) s in
      (4, s)
  | 0x0F => (* rrc *)
      let s := set_C_FLAG (Z.land (A s) 0x01) s in
      let s := set_A (Z.lor (Z.shiftr (A s) 1) (Z.shiftl (C_FLAG s) 7)) s in
      (4, s)
  | 0x17 => (* ral *)
      let work8 := uns8 (C_FLAG s) in
      let s := set_C_FLAG (ne0 (Z.land (A s) 0x80)) s in
      let s := set_A (Z.lor (Z.shiftl (A s) 1) work8) s in
      (4, s)
  | 0x1F => (* rar *)
      let work8 := uns8 (C_FLAG s) in
      let s := set_C_FLAG (Z.land (A s) 0x01) s in
      let s := set_A (Z.lor (Z.shiftr (A s) 1) (Z.shiftl work8 7)) s in
      (4, s)
  | 0x22 => (* shld addr *)
      let s := WR_WORD (RD_WORD s (PC s)) (HL s) s in
      let s := set_PC (PC s + 2) s in
      (16, s)
  | 0x27 => (* daa *)
      let carry := uns8 (C_FLAG s) in
      let add := 0 in
      let add :=
        if truth (H_FLAG s) || (Z.land (A s) 0x0f >? 9) then 0x06 else add in
      let high :=
        truth (C_FLAG s) || (Z.shiftr (A s) 4 >? 9)
        || ((Z.shiftr (A s) 4 >=? 9) && (Z.land (A s) 0x0f >? 9)) in
      let add := if high then uns8 (Z.lor add 0x60) else add in
      let carry := if high then 1 else carry in
      let s := ADD add s in
      let s := set_P_FLAG (PARITY (A s)) s in
      let s := set_C_FLAG carry s in
      (4, s)
  | 0x2A => (* ldhl addr *)
      let s := set_HL (RD_WORD s (RD_WORD s (PC s))) s in
      let s := set_PC (PC s + 2) s in
      (16, s)
  | 0x2F => (* cma *)
      let s := set_A (Z.lxor (A s) 0xff) s in
      (4, s)
  | 0x32 => (* sta addr *)
      let s := WR_BYTE (RD_WORD s (PC s)) (A s) s in
      let s := set_PC (PC s + 2) s in
      (13, s)
  | 0x34 => (* inr m *)
      let work8 := uns8 (RD_BYTE s (HL s)) in
      let '(work8, s) := INR work8 s in
      let s := WR_BYTE (HL s) work8 s in
      (10, s)
  | 0x35 => (* dcr m *)
      let work8 := uns8 (RD_BYTE s (HL s)) in
      let '(work8, s) := DCR work8 s in
      let s := WR_BYTE (HL s) work8 s in
      (10, s)
  | 0x36 => (* mvi m, data8 *)
      let '(data8, s) := RD_BYTE_PC_inc s in
      let s := WR_BYTE (HL s) data8 s in
      (10, s)
  | 0x37 => (* stc *)
      (4, set_C_FLAG 1 s)
  | 0x3A => (* lda addr *)
      let s := set_A (RD_BYTE s (RD_WORD s (PC s))) s in
      let s := set_PC (PC s + 2) s in
      (13, s)
  | 0x3F => (* cmc *)
      (4, set_C_FLAG (c_not (C_FLAG s)) s)
  | 0x76 => (* hlt *)
      (4, set_PC (PC s - 1) s)
  | 0x86 => (* add m *)
      let work8 := uns8 (RD_BYTE s (HL s)) in (7, ADD work8 s)
  | 0x8E => (* adc m *)
      let work8 := uns8 (RD_BYTE s (HL s)) in (7, ADC work8 s)
  | 0x96 => (* sub m *)
      let work8 := uns8 (RD_BYTE s (HL s)) in (7, SUB work8 s)
  | 0x9E => (* sbb m *)
      let work8 := uns8 (RD_BYTE s (HL s)) in (7, SBB work8 s)
  | 0xA6 => (* ana m *)
      let work8 := uns8 (RD_BYTE s (HL s)) in (7, ANA work8 s)
  | 0xAE => (* xra m *)
      let work8 := uns8 (RD_BYTE s (HL s)) in (7, XRA work8 s)
  | 0xB6 => (* ora m *)
      let work8 := uns8 (RD_BYTE s (HL s)) in (7, ORA work8 s)
  | 0xBE => (* cmp m *)
      let work8 := uns8 (RD_BYTE s (HL s)) in (7, CMP work8 s)
  | 0xC3 | 0xCB => (* jmp addr *)
      (10, set_PC (RD_WORD s (PC s)) s)
  | 0xC6 => (* adi data8 *)
      let '(data8, s) := RD_BYTE_PC_inc s in (7, ADD (uns8 data8) s)
  | 0xC9 | 0xD9 => (* ret *)
      (10, POP set_PC s)
  | 0xCD | 0xDD | 0xED | 0xFD => (* call addr *)
      (17, CALL s)
  | 0xCE => (* aci data8 *)
      let '(data8, s) := RD_BYTE_PC_inc s in (7, ADC (uns8 data8) s)
  | 0xD3 => (* out port8 *)
      let '(port8, s) := RD_BYTE_PC_inc s in
      (10, on_host (fun w => i8080_hal_io_output w port8 (A s)) s)
  | 0xD6 => (* sui data8 *)
      let '(data8, s) := RD_BYTE_PC_inc s in (7, SUB (uns8 data8) s)
  | 0xDB => (* in port8 *)
      let '(port8, s) := RD_BYTE_PC_inc s in
      let answer := i8080_hal_io_input (host s) port8 in
      (10, set_A (fst answer) (on_host (fun _ => snd answer) s))
  | 0xDE => (* sbi data8 *)
      let '(data8, s) := RD_BYTE_PC_inc s in (7, SBB (uns8 data8) s)
  | 0xE3 => (* xthl *)
      let work16 := uns16 (RD_WORD s (SP s)) in
      let s := WR_WORD (SP s) (HL s) s in
      let s := set_HL work16 s in
      (18, s)
  | 0xE6 => (* ani data8 *)
      let '(data8, s) := RD_BYTE_PC_inc s in (7, ANA (uns8 data8) s)
  | 0xE9 => (* pchl *)
      (5, set_PC (HL s) s)
  | 0xEB => (* xchg *)
      let work16 := DE s in
      let s := set_DE (HL s) s in
      let s := set_HL work16 s in
      (4, s)
  | 0xEE => (* xri data8 *)
      let '(data8, s) := RD_BYTE_PC_inc s in (7, XRA (uns8 data8) s)
  | 0xF1 => (* pop psw *)
      let s := POP set_AF s in
      (10, i8080_retrieve_flags s)
  | 0xF3 => (* di *)
      let s := set_IFF 0 s in
      (4, on_host (fun w => i8080_hal_iff w (IFF s)) s)
  | 0xF5 => (* push psw *)
      let s := i8080_store_flags s in
      (11, PUSH AF s)
  | 0xF6 => (* ori data8 *)
      let '(data8, s) := RD_BYTE_PC_inc s in (7, ORA (uns8 data8) s)
  | 0xF9 => (* sphl *)
      (5, set_SP (HL s) s)
  | 0xFB => (* ei *)
      let s := set_IFF 1 s in
      (4, on_host (fun w => i8080_hal_iff w (IFF s)) s)
  | 0xFE => (* cpi data8 *)
      let '(data8, s) := RD_BYTE_PC_inc s in (7, CMP (uns8 data8) s)
  | _ => (0, s)
  end.

(** The three masked [switch]es.  Every case returns; [None] is the fall
    through to what follows. *)

(** [switch (opcode & 0b11111000)]: cmp, ora, xra, ana, sbb, sub, adc,
    add with a register. *)
Definition execute_alu (opcode : Z) s : option (Z * machine W) :=
  match Z.land opcode 0xF8 with
  | 0xB8 => Some (4, CMP (REG (SOURCE opcode) s) s)
  | 0xB0 => Some (4, ORA (REG (SOURCE opcode) s) s)
  | 0xA8 => Some (4, XRA (REG (SOURCE opcode) s) s)
  | 0xA0 => Some (4, ANA (REG (SOURCE opcode) s) s)
  | 0x98 => Some (4, SBB (REG (SOURCE opcode) s) s)
  | 0x90 => Some (4, SUB (REG (SOURCE opcode) s) s)
  | 0x88 => Some (4, ADC (REG (SOURCE opcode) s) s)
  | 0x80 => Some (4, ADD (REG (SOURCE opcode) s) s)
  | _ => None
  end.

(** [switch (opcode & 0b11000111)]: rst, cccc, jccc, rccc, mvi, dcr,
    inr. *)
Definition execute_single (opcode : Z) s : option (Z * machine W) :=
  match Z.land opcode 0xC7 with
  | 0xC7 => Some (11, RST (DEST opcode * 8) s)
  | 0xC4 =>
      if truth (i8080_checkCondition (CONDITION opcode) s)
      then Some (17, CALL s)
      else Some (11, set_PC (PC s + 2) s)
  | 0xC2 =>
      let s :=
        if truth (i8080_checkCondition (CONDITION opcode) s)
        then set_PC (RD_WORD s (PC s)) s
        else set_PC (PC s + 2) s in
      Some (10, s)
  | 0xC0 =>
      if truth (i8080_checkCondition (CONDITION opcode) s)
      then Some (11, POP set_PC s)
      else Some (5, s)
  | 0x06 =>
      let '(data8, s) := RD_BYTE_PC_inc s in
      Some (7, set_REG (DEST opcode) data8 s)
  | 0x05 =>
      let '(reg, s) := DCR (REG (DEST opcode) s) s in
      Some (5, set_REG (DEST opcode) reg s)
  | 0x04 =>
      let '(reg, s) := INR (REG (DEST opcode) s) s in
      Some (5, set_REG (DEST opcode) reg s)
  | _ => None
  end.

(** [switch (opcode & 0b11001111)]: push, pop, dcx, ldax, dad, inx,
    stax, lxi. *)
Definition execute_pair (opcode : Z) s : option (Z * machine W) :=
  match Z.land opcode 0xCF with
  | 0xC5 => Some (11, PUSH (PAIR (RP opcode)) s)
  | 0xC1 => Some (11, POP (set_PAIR (RP opcode)) s)
  | 0x0B => Some (5, set_PAIR (RP opcode) (PAIR (RP opcode) s - 1) s)
  | 0x0A => Some (7, set_A (RD_BYTE s (PAIR (RP opcode) s)) s)
  | 0x09 => Some (10, DAD (PAIR (RP opcode) s) s)
  | 0x03 => Some (5, set_PAIR (RP opcode) (PAIR (RP opcode) s + 1) s)
  | 0x02 => Some (7, WR_BYTE (PAIR (RP opcode) s) (A s) s)
  | 0x01 =>
      let s := set_PAIR (RP opcode) (RD_WORD s (PC s)) s in
      Some (10, set_PC (PC s + 2) s)
  | _ => None
  end.

(** [mov d,s], and the final [return -1]. *)
Definition execute_mov (opcode : Z) s : Z * machine W :=
  if Z.land opcode 0xC0 =? 0x40 then
    let s :=
      if DEST opcode =? 6 then WR_BYTE (HL s) (REG (SOURCE opcode) s) s
      else if SOURCE opcode =? 6 then set_REG (DEST opcode) (RD_BYTE s (HL s)) s
      else set_REG (DEST opcode) (REG (SOURCE opcode) s) s in
    (5, s)
  else (-1, s).

Definition i8080_execute (opcode : Z) s : Z * machine W :=
  let '(cpu_cycles, s) := execute_exact opcode s in
  if negb (cpu_cycles =? 0) then (cpu_cycles, s) else
  match execute_alu opcode s with
  | Some r => r
  | None =>
  match execute_single opcode s with
  | Some r => r
  | None =>
  match execute_pair opcode s with
  | Some r => r
  | None => execute_mov opcode s
  end end end.

Definition i8080_instruction s : Z * machine W :=
  let '(opcode, s) := RD_BYTE_PC_inc s in
  i8080_execute opcode s.

Definition i8080_jump (addr : Z) s : machine W :=
  set_PC (Z.land addr 0xffff) s.

Definition i8080_pc s : Z := PC s.
Definition i8080_regs_bc s : Z := BC s.
Definition i8080_regs_de s : Z := DE s.
Definition i8080_regs_hl s : Z := HL s.
Definition i8080_regs_sp s : Z := SP s.
Definition i8080_regs_a s : Z := A s.
Definition i8080_regs_b s : Z := B s.
Definition i8080_regs_c s : Z := C s.
Definition i8080_regs_d s : Z := D s.
Definition i8080_regs_e s : Z := E s.
Definition i8080_regs_h s : Z := H s.
Definition i8080_regs_l s : Z := L s.
End Core.

(** ** A host to run programs on

    Modelled from the spec: the host of sections 4.1 and 6, which is not part
    of the core.  Memory is a flat 16-bit address space of bytes, a word is
    little-endian and wraps from 0xFFFF to 0x0000, the port space answers 0,
    and port output and latch notifications are logged. *)
Record flat_host : Type := mk_flat_host {
  ram : Z -> Z;
  port_log : list (Z * Z);
  iff_log : list Z
}.

Definition poke (addr value : Z) (m : Z -> Z) : Z -> Z :=
  fun a => if a =? uns16 addr then uns8 value else m a.

Definition flat_read_byte (w : flat_host) (addr : Z) : Z := ram w (uns16 addr).
Definition flat_read_word (w : flat_host) (addr : Z) : Z :=
  Z.lor (ram w (uns16 addr)) (Z.shiftl (ram w (uns16 (addr + 1))) 8).
Definition flat_write_byte (w : flat_host) (addr value : Z) : flat_host :=
  mk_flat_host (poke addr value (ram w)) (port_log w) (iff_log w).
Definition flat_write_word (w : flat_host) (addr value : Z) : flat_host :=
  mk_flat_host (poke (addr + 1) (Z.shiftr value 8) (poke addr value (ram w)))
               (port_log w) (iff_log w).

#[export] Instance flat_hal : i8080_hal flat_host := {
  i8080_hal_memory_read_byte := flat_read_byte;
  i8080_hal_memory_read_word := flat_read_word;
  i8080_hal_memory_write_byte := flat_write_byte;
  i8080_hal_memory_write_word := flat_write_word;
  i8080_hal_io_input := fun w _ => (0, w);
  i8080_hal_io_output := fun w port value =>
    mk_flat_host (ram w) ((port, value) :: port_log w) (iff_log w);
  i8080_hal_iff := fun w on => mk_flat_host (ram w) (port_log w) (on :: iff_log w)
}.

(** Memory holding [program] from address [org] on, zero elsewhere. *)
Fixpoint load (org : Z) (program : list Z) (m : Z -> Z) : Z -> Z :=
  match program with
  | [] => m
  | b :: rest => load (org + 1) rest (poke org b m)
  end.

Definition host_with (org : Z) (program : list Z) : flat_host :=
  mk_flat_host (load org program (fun _ => 0)) [] [].

(** The machine at program start: zeroed statics over a given host. *)
Definition power_on {W} (w : W) : machine W := mk_machine zero_cpu 0 w.

(** [n] calls of [i8080_instruction], with the cycles added up. *)
Fixpoint run {W} {HAL : i8080_hal W} (n : nat) (s : machine W) : Z * machine W :=
  match n with
  | O => (0, s)
  | S n' =>
      let '(c, s) := i8080_instruction s in
      let '(cs, s) := run n' s in
      (c + cs, s)
  end.

(** The machines a host can bring about: it starts from the zeroed statics
    and calls [i8080_init], [i8080_jump] and [i8080_instruction]. *)
Inductive reachable {W} {HAL : i8080_hal W} : machine W -> Prop :=
| reach_power_on (w : W) : reachable (power_on w)
| reach_init (s : machine W) : reachable s -> reachable (i8080_init s)
| reach_jump (addr : Z) (s : machine W) :
    reachable s -> reachable (i8080_jump addr s)
| reach_instruction (s : machine W) :
    reachable s -> reachable (snd (i8080_instruction s)).

(** ** Vocabulary of the properties *)

(** The 256 values of a byte, for the properties settled by running the
    code on every one of them. *)
Definition bytes : list Z := Eval vm_compute in map Z.of_nat (seq 0 256).
Definition all_bytes (p : Z -> bool) : bool := forallb p bytes.

(** Well-formed machines: what the C types and the assignments of the code
    keep true.  A register half is a byte; a flag field holds 0 or 1. *)
Definition byte_ok (v : Z) : Prop := 0 <= v < 256.
Definition flag_ok (v : Z) : Prop := v = 0 \/ v = 1.
Definition pair_ok (p : reg_pair) : Prop := byte_ok (b_l p) /\ byte_ok (b_h p).
Definition flags_ok (r : flag_reg) : Prop :=
  flag_ok (carry_flag r) /\ flag_ok (parity_flag r) /\
  flag_ok (half_carry_flag r) /\ flag_ok (zero_flag r) /\ flag_ok (sign_flag r).
Definition machine_ok {W} (s : machine W) : Prop :=
  flags_ok (f (cpu s)) /\
  pair_ok (af (cpu s)) /\ pair_ok (bc (cpu s)) /\ pair_ok (de (cpu s)) /\
  pair_ok (hl (cpu s)) /\ pair_ok (sp (cpu s)) /\ pair_ok (pc (cpu s)) /\
  byte_ok (M s).

(** Number of set bits among bits 0..7, and the even-parity predicate. *)
Definition popcount8 (r : Z) : nat :=
  length (filter (Z.testbit r) [0; 1; 2; 3; 4; 5; 6; 7]).
Definition even_parity (r : Z) : bool := Nat.even (popcount8 r).

(** Carry out of bit 3 of the 4-bit addition, borrow out of bit 3 of the 4-bit
    subtraction, with the carry or borrow that comes in. *)
Definition carry_out_of_bit3 (a v cin : Z) : bool := 16 <=? a mod 16 + v mod 16 + cin.
Definition borrow_out_of_bit3 (a v bin : Z) : bool := a mod 16 <? v mod 16 + bin.

(** The table index as the prose gives it: bits 2, 1, 0 are bit 3 of the
    accumulator, of the operand and of the result. *)
Definition bit3_index (a op result : Z) : Z :=
  Z.lor (Z.lor (Z.shiftr (Z.land a 8) 1) (Z.shiftr (Z.land op 8) 2))
        (Z.shiftr (Z.land result 8) 3).

(** What the five macros leave in [H_FLAG], as functions of the old
    accumulator, the operand and the carry that comes in. *)
Definition add_half_carry (a v cin : Z) : Z :=
  uns8 (at_index half_carry_table
          (Z.land (hc_index a v (uns16 (a + v + cin))) 0x7)).
Definition sub_half_carry (a v bin : Z) : Z :=
  uns8 (c_not (at_index sub_half_carry_table
                 (Z.land (hc_index a v (uns16 (a - v - bin))) 0x7))).

(** The half-carry facts at one accumulator, one operand and one carry. *)
Definition half_carry_check (a v c : Z) : bool :=
  (add_half_carry a v c =? c_bool (carry_out_of_bit3 a v c))
  && (sub_half_carry a v c =? c_bool (negb (borrow_out_of_bit3 a v c)))
  && (at_index half_carry_table (bit3_index a v (a + v + c))
      =? c_bool (carry_out_of_bit3 a v c))
  && (at_index sub_half_carry_table (bit3_index a v (a - v - c))
      =? c_bool (borrow_out_of_bit3 a v c)).


(** The opcodes of the timing classes. *)
Definition is_mov (op : Z) : bool := Z.land op 0xC0 =? 0x40.
Definition mov_memory_opcodes : list Z :=
  filter (fun op => is_mov op && negb (op =? 0x76)
                    && ((DEST op =? 6) || (SOURCE op =? 6))) bytes.
Definition mov_register_opcodes : list Z :=
  filter (fun op => is_mov op && negb (DEST op =? 6) && negb (SOURCE op =? 6)) bytes.
Definition alu_memory_opcodes : list Z :=
  [0x86; 0x8E; 0x96; 0x9E; 0xA6; 0xAE; 0xB6; 0xBE].
Definition mvi_register_opcodes : list Z :=
  [0x06; 0x0E; 0x16; 0x1E; 0x26; 0x2E; 0x3E].
Definition alu_immediate_opcodes : list Z :=
  [0xC6; 0xCE; 0xD6; 0xDE; 0xE6; 0xEE; 0xF6; 0xFE].
Definition ldax_stax_opcodes : list Z := [0x0A; 0x1A; 0x02; 0x12].

(** The cycle counts of the timing table. *)
Definition cycle_values : list Z := [4; 5; 7; 10; 11; 13; 16; 17; 18].

Section Prose.
Context {W : Type} {HAL : i8080_hal W}.
Implicit Type s : machine W.

(** Decimal adjust as the prose gives it: add is 0 and carry is C; if H or
    the low nibble exceeds 9, add gets 0x06; if C or the high nibble
    exceeds 9, or it is 9 at least with the low nibble above 9, add gets
    0x60 and carry is 1; then ADD(add), then C becomes carry. *)
Definition DAA_prose s : machine W :=
  let low := Z.land (Reg.A s) 0x0F in
  let high := Z.shiftr (Reg.A s) 4 in
  let add := 0 in
  let carry := Reg.C_FLAG s in
  let add := if truth (Reg.H_FLAG s) || (9 <? low) then Z.lor add 0x06 else add in
  let adjust_high :=
    truth (Reg.C_FLAG s) || (9 <? high) || ((9 <=? high) && (9 <? low)) in
  let add := if adjust_high then Z.lor add 0x60 else add in
  let carry := if adjust_high then 1 else carry in
  Reg.set_C_FLAG carry (ADD add s).
End Prose.

(** Machines the examples run on. *)

(** [MVI A,0x9B; DAA] at address 0. *)
Definition daa_demo : machine flat_host :=
  i8080_jump 0 (i8080_init (power_on (host_with 0 [0x3E; 0x9B; 0x27]))).


(** [MVI A,5] has run; the host is about to call [i8080_init] again. *)
Definition after_mvi_demo : machine flat_host :=
  snd (run 1 (i8080_jump 0 (i8080_init (power_on (host_with 0 [0x3E; 0x05]))))).

(** [MOV B,M] at address 0. *)
Definition mov_demo : machine flat_host :=
  i8080_jump 0 (i8080_init (power_on (host_with 0 [0x46]))).

(** [MVI A,0x5A] has run and [CMA] is next. *)
Definition cma_demo : machine flat_host :=
  snd (run 1 (i8080_jump 0 (i8080_init (power_on (host_with 0 [0x3E; 0x5A; 0x2F]))))).

(** [MVI A,0x3C; STC] have run: an accumulator and a carry to do arithmetic
    on. *)
Definition alu_demo : machine flat_host :=
  snd (run 2 (i8080_jump 0 (i8080_init (power_on (host_with 0 [0x3E; 0x3C; 0x37]))))).

(** * Properties *)

(** ** Conversions and words *)

Lemma uns8_mod (v : Z) : uns8 v = v mod 256.
Proof. unfold uns8. change 0xff with (Z.ones 8). now rewrite Z.land_ones. Qed.

Lemma uns16_mod (v : Z) : uns16 v = v mod 65536.
Proof. unfold uns16. change 0xffff with (Z.ones 16). now rewrite Z.land_ones. Qed.

Lemma uns8_range (v : Z) : 0 <= uns8 v < 256.
Proof. rewrite uns8_mod. apply Z.mod_pos_bound. lia. Qed.

Lemma uns8_idem (v : Z) : uns8 (uns8 v) = uns8 v.
Proof. unfold uns8. now rewrite <- Z.land_assoc. Qed.

Lemma uns8_small (v : Z) : 0 <= v < 256 -> uns8 v = v.
Proof. intros Hv. rewrite uns8_mod. now apply Z.mod_small. Qed.

Lemma uns8_c_bool (b : bool) : uns8 (c_bool b) = c_bool b.
Proof. now destruct b. Qed.

Lemma testbit_uns8 (v n : Z) :
  0 <= n -> Z.testbit (uns8 v) n = Z.testbit v n && (n <? 8).
Proof.
  intros Hn. unfold uns8. change 0xff with (Z.ones 8).
  rewrite Z.land_spec, Z.testbit_ones_nonneg by lia. reflexivity.
Qed.

(** Writing a word into a pair and reading it back keeps its low 16 bits. *)
Lemma get_w_set_w (v : Z) : get_w (set_w v) = uns16 v.
Proof.
  unfold get_w, set_w; cbn [b_l b_h].
  apply Z.bits_inj'; intros n Hn.
  rewrite Z.lor_spec, Z.shiftl_spec, (testbit_uns8 v n) by lia.
  unfold uns16. change 0xffff with (Z.ones 16).
  rewrite Z.land_spec, Z.testbit_ones_nonneg by lia.
  destruct (Z.ltb_spec n 8) as [Hlt|Hge].
  - rewrite (Z.testbit_neg_r _ (n - 8)) by lia.
    replace (n <? 16) with true by (symmetry; apply Z.ltb_lt; lia).
    reflexivity.
  - rewrite testbit_uns8, Z.shiftr_spec by lia.
    replace (n - 8 + 8) with n by lia.
    replace (n - 8 <? 8) with (n <? 16).
    + now rewrite andb_false_r, orb_false_r.
    + destruct (Z.ltb_spec n 16), (Z.ltb_spec (n - 8) 8); (reflexivity || lia).
Qed.

(** ** Every byte, one by one *)

Lemma bytes_complete (x : Z) : 0 <= x < 256 -> In x bytes.
Proof.
  intros Hx. change bytes with (map Z.of_nat (seq 0 256)).
  apply in_map_iff. exists (Z.to_nat x). split; [lia|].
  apply in_seq. lia.
Qed.

Lemma all_bytes_spec (p : Z -> bool) :
  all_bytes p = true -> forall x, 0 <= x < 256 -> p x = true.
Proof.
  unfold all_bytes. rewrite forallb_forall.
  intros Hp x Hx. apply Hp, bytes_complete, Hx.
Qed.

Lemma byte_cases (P : Z -> Prop) :
  Forall P bytes -> forall op, 0 <= op < 256 -> P op.
Proof.
  intros HP op Hop. rewrite Forall_forall in HP. apply HP, bytes_complete, Hop.
Qed.

(** ** [i8080_jump] *)

(** C9: [i8080_jump] sets PC to its argument modulo 65536, whatever integer
    it is given, and changes nothing else: not the flags, not a register
    pair, not the latch, not [M], not the host. *)
Theorem jump_sets_pc_only W (addr : Z) (s : machine W) :
  Reg.PC (i8080_jump addr s) = addr mod 65536 /\
  f (cpu (i8080_jump addr s)) = f (cpu s) /\
  af (cpu (i8080_jump addr s)) = af (cpu s) /\
  bc (cpu (i8080_jump addr s)) = bc (cpu s) /\
  de (cpu (i8080_jump addr s)) = de (cpu s) /\
  hl (cpu (i8080_jump addr s)) = hl (cpu s) /\
  sp (cpu (i8080_jump addr s)) = sp (cpu s) /\
  iff (cpu (i8080_jump addr s)) = iff (cpu s) /\
  last_pc (cpu (i8080_jump addr s)) = last_pc (cpu s) /\
  M (i8080_jump addr s) = M s /\
  host (i8080_jump addr s) = host s.
Proof.
  split; [| repeat split].
  unfold i8080_jump, Reg.PC, Reg.set_PC. cbn [on_cpu cpu with_pc pc].
  rewrite get_w_set_w, uns16_mod. fold (uns16 addr). rewrite uns16_mod.
  apply Z.mod_mod. lia.
Qed.

(** ** [i8080_init] *)

(** C3, as the code has it: [i8080_init] clears the five logical flags, sets
    the three unused flag fields to 1, 0, 0 and PC to 0xF800, and leaves AF
    (so A and the packed F), BC, DE, HL, SP, the latch, [M] and the host as
    they were: each of A, F, B, C, D, E, H, L, SP and IFF holds after the
    call what it held before, so it is 0 after exactly when it was 0 before.
    On the zeroed statics of program start that makes them all 0. *)
Theorem init_resets_flags_and_pc W (s : machine W) (w : W) :
  f (cpu (i8080_init s)) = mk_flag_reg 0 1 0 0 0 0 0 0 /\
  Reg.PC (i8080_init s) = 0xF800 /\
  af (cpu (i8080_init s)) = af (cpu s) /\
  bc (cpu (i8080_init s)) = bc (cpu s) /\
  de (cpu (i8080_init s)) = de (cpu s) /\
  hl (cpu (i8080_init s)) = hl (cpu s) /\
  sp (cpu (i8080_init s)) = sp (cpu s) /\
  iff (cpu (i8080_init s)) = iff (cpu s) /\
  M (i8080_init s) = M s /\
  host (i8080_init s) = host s /\
  (let s0 := i8080_init (power_on w) in
   Reg.A s0 = 0 /\ Reg.F s0 = 0 /\ Reg.B s0 = 0 /\ Reg.C s0 = 0 /\
   Reg.D s0 = 0 /\ Reg.E s0 = 0 /\ Reg.H s0 = 0 /\ Reg.L s0 = 0 /\
   Reg.SP s0 = 0 /\ Reg.IFF s0 = 0) /\
  (Reg.A (i8080_init s) = Reg.A s /\ Reg.F (i8080_init s) = Reg.F s /\
   Reg.B (i8080_init s) = Reg.B s /\ Reg.C (i8080_init s) = Reg.C s /\
   Reg.D (i8080_init s) = Reg.D s /\ Reg.E (i8080_init s) = Reg.E s /\
   Reg.H (i8080_init s) = Reg.H s /\ Reg.L (i8080_init s) = Reg.L s /\
   Reg.SP (i8080_init s) = Reg.SP s /\ Reg.IFF (i8080_init s) = Reg.IFF s) /\
  ((Reg.A (i8080_init s) = 0 <-> Reg.A s = 0) /\
   (Reg.F (i8080_init s) = 0 <-> Reg.F s = 0) /\
   (Reg.B (i8080_init s) = 0 <-> Reg.B s = 0) /\
   (Reg.C (i8080_init s) = 0 <-> Reg.C s = 0) /\
   (Reg.D (i8080_init s) = 0 <-> Reg.D s = 0) /\
   (Reg.E (i8080_init s) = 0 <-> Reg.E s = 0) /\
   (Reg.H (i8080_init s) = 0 <-> Reg.H s = 0) /\
   (Reg.L (i8080_init s) = 0 <-> Reg.L s = 0) /\
   (Reg.SP (i8080_init s) = 0 <-> Reg.SP s = 0) /\
   (Reg.IFF (i8080_init s) = 0 <-> Reg.IFF s = 0)).
Proof.
  repeat split; trivial.
Qed.

(** C3, as stated, fails: after [MVI A,5] a second [i8080_init] leaves 5 in
    the accumulator. *)
Lemma init_keeps_accumulator : Reg.A (i8080_init after_mvi_demo) <> 0.
Proof. vm_compute. discriminate. Qed.

(** ** CMP against SUB *)

Lemma land_low_byte (w k : Z) :
  0 <= k < 256 -> Z.land (uns8 (Z.land w 0xff)) k = Z.land w k.
Proof.
  intros Hk. unfold uns8. rewrite <- !Z.land_assoc. f_equal.
  rewrite Z.land_assoc. change (Z.land 0xff 0xff) with (Z.ones 8).
  rewrite Z.land_comm, Z.land_ones by lia. now apply Z.mod_small.
Qed.

(** C6: [CMP(v)] does not write the accumulator, and sets S, Z, H, P and C
    to what [SUB(v)] sets them to from the same state, for every state and
    every operand. *)
Theorem cmp_flags_as_sub W (s : machine W) (v : Z) :
  Reg.A (CMP v s) = Reg.A s /\
  Reg.S_FLAG (CMP v s) = Reg.S_FLAG (SUB v s) /\
  Reg.Z_FLAG (CMP v s) = Reg.Z_FLAG (SUB v s) /\
  Reg.H_FLAG (CMP v s) = Reg.H_FLAG (SUB v s) /\
  Reg.P_FLAG (CMP v s) = Reg.P_FLAG (SUB v s) /\
  Reg.C_FLAG (CMP v s) = Reg.C_FLAG (SUB v s).
Proof.
  set (work16 := uns16 (Reg.A s - v)).
  assert (HA : Reg.A (SUB v s) = uns8 (Z.land work16 0xff)) by reflexivity.
  assert (Hlow : uns8 (Z.land work16 0xff) = Z.land work16 0xff).
  { unfold uns8. now rewrite <- Z.land_assoc. }
  repeat split.
  - change (Reg.S_FLAG (CMP v s)) with (uns8 (ne0 (Z.land work16 0x80))).
    change (Reg.S_FLAG (SUB v s))
      with (uns8 (ne0 (Z.land (uns8 (Z.land work16 0xff)) 0x80))).
    now rewrite land_low_byte by lia.
  - change (Reg.Z_FLAG (CMP v s)) with (uns8 (c_bool (Z.land work16 0xff =? 0))).
    change (Reg.Z_FLAG (SUB v s))
      with (uns8 (c_bool (uns8 (Z.land work16 0xff) =? 0))).
    now rewrite Hlow.
  - change (Reg.P_FLAG (CMP v s)) with (uns8 (PARITY (Z.land work16 0xff))).
    change (Reg.P_FLAG (SUB v s))
      with (uns8 (PARITY (uns8 (Z.land work16 0xff)))).
    now rewrite Hlow.
Qed.

(** ** Decoding *)

(** Runs the decoder on a literal opcode and stops at the macros and the
    register accesses. *)
Ltac decode :=
  lazy -[Z.lt Z.le Z.add Z.sub Z.mul
         REG set_REG PAIR set_PAIR POP PUSH RET ADD ADC SUB SBB CMP ANA
         XRA ORA DAD CALL RST i8080_store_flags i8080_retrieve_flags
         i8080_checkCondition truth RD_BYTE RD_WORD WR_BYTE WR_WORD on_host
         i8080_hal_io_input i8080_hal_io_output i8080_hal_iff
         uns8 uns16 ne0 c_not c_bool PARITY
         Reg.AF Reg.BC Reg.DE Reg.HL Reg.SP Reg.PC Reg.A Reg.F Reg.IFF
         Reg.set_AF Reg.set_BC Reg.set_DE Reg.set_HL Reg.set_SP Reg.set_PC
         Reg.set_A Reg.set_F Reg.set_IFF Reg.C_FLAG Reg.H_FLAG
         Reg.set_C_FLAG Reg.set_P_FLAG Reg.set_S_FLAG Reg.set_Z_FLAG
         Reg.set_H_FLAG].

(** Splits a [Forall] over a literal list into one goal per element. *)
Ltac each_opcode :=
  repeat (apply Forall_cons; [ | ]); try apply Forall_nil.

(** For a property of every [int] opcode: splits a literal [switch] on every
    bit of its scrutinee, leaving one goal per case and per way into the
    default. *)
Ltac switch_cases :=
  repeat (match goal with
          | |- context [match ?q with xI _ => _ | xO _ => _ | xH => _ end] =>
              is_var q; destruct q
          end; cbv beta iota).

(** A masked [switch]: the scrutinee is whatever the mask leaves. *)
Ltac masked_switch :=
  match goal with
  | |- context [match ?k with Z0 => _ | Zpos _ => _ | Zneg _ => _ end] =>
      generalize k; intros [|p|p]; cbv beta iota
  end;
  try discriminate; switch_cases; try discriminate.

(** Runs the local bindings of a case body. *)
Ltac run_body :=
  cbv beta iota zeta delta [fst snd RD_BYTE_PC_inc INR DCR].

(** The cycle count of every opcode is one of the values of the timing
    table. *)
Lemma execute_cycles_in_table W (HAL : i8080_hal W) (s : machine W) :
  Forall (fun op => In (fst (i8080_execute op s)) cycle_values) bytes.
Proof.
  unfold bytes, cycle_values. each_opcode.
  all: decode.
  all: try (destruct (truth _)).
  all: lazy iota; repeat (try (left; reflexivity); right).
Qed.

(** C4: for an opcode in 0..255 and any machine, [i8080_execute] returns a
    positive cycle count, one of the table's, never the -1 of the last
    line; and so does [i8080_instruction] when the byte the host hands it at
    PC is such an opcode. *)
Theorem every_opcode_is_decoded W (HAL : i8080_hal W) (s : machine W) (op : Z) :
  0 <= op < 256 ->
  0 < fst (i8080_execute op s) /\
  In (fst (i8080_execute op s)) cycle_values /\
  (RD_BYTE s (Reg.PC s) = op -> 0 < fst (i8080_instruction s)).
Proof.
  intros Hop.
  assert (Hall : forall s' : machine W, In (fst (i8080_execute op s')) cycle_values).
  { intros s'. revert op Hop. apply byte_cases, execute_cycles_in_table. }
  assert (Hpos : forall c, In c cycle_values -> 0 < c).
  { unfold cycle_values. cbn [In]. intros c Hc.
    repeat (destruct Hc as [Hc|Hc]; [lia|]). contradiction. }
  split; [apply Hpos, Hall|]. split; [apply Hall|].
  intros Hfetch. unfold i8080_instruction, RD_BYTE_PC_inc.
  rewrite Hfetch. apply Hpos, Hall.
Qed.

Lemma every_opcode_is_decoded_witness :
  0 < fst (i8080_execute 0x46 mov_demo) /\
  In (fst (i8080_execute 0x46 mov_demo)) cycle_values /\
  (RD_BYTE mov_demo (Reg.PC mov_demo) = 0x46 -> 0 < fst (i8080_instruction mov_demo)).
Proof. apply (every_opcode_is_decoded flat_host flat_hal mov_demo 0x46). lia. Defined.

(** ** Timing of the moves *)

(** The classes of the 7-cycle row other than the moves do cost 7, and a
    move between two registers costs 5. *)
Lemma seven_cycle_classes W (HAL : i8080_hal W) (s : machine W) :
  Forall (fun op => fst (i8080_execute op s) = 7)
         (alu_memory_opcodes ++ mvi_register_opcodes
          ++ alu_immediate_opcodes ++ ldax_stax_opcodes).
Proof.
  lazy [alu_memory_opcodes mvi_register_opcodes alu_immediate_opcodes
        ldax_stax_opcodes app].
  each_opcode. all: decode; reflexivity.
Qed.

Lemma mov_register_costs_5 W (HAL : i8080_hal W) (s : machine W) :
  Forall (fun op => fst (i8080_execute op s) = 5) mov_register_opcodes.
Proof.
  let l := eval vm_compute in mov_register_opcodes in
  change mov_register_opcodes with l.
  each_opcode. all: decode; reflexivity.
Qed.

(** C1, where the code departs from it: each of the fourteen moves with a
    memory operand ([MOV r,M] and [MOV M,r]) returns 5 cycles where the
    timing table has 7; the move block ends in one [return 5] for its three
    branches.  On a host with [MOV B,M] at PC, [i8080_instruction] returns
    5. *)
Theorem mov_memory_costs_5 W (HAL : i8080_hal W) (s : machine W) :
  Forall (fun op => fst (i8080_execute op s) = 5) mov_memory_opcodes /\
  mov_memory_opcodes =
    [0x46; 0x4E; 0x56; 0x5E; 0x66; 0x6E; 0x70; 0x71; 0x72; 0x73; 0x74; 0x75;
     0x77; 0x7E] /\
  fst (i8080_instruction mov_demo) = 5.
Proof.
  split; [| split; reflexivity].
  let l := eval vm_compute in mov_memory_opcodes in
  change mov_memory_opcodes with l.
  each_opcode. all: decode; reflexivity.
Qed.

(** ** Parity *)

Lemma getParity_bytes :
  all_bytes (fun r => i8080_getParity r =? c_bool (even_parity r)) = true.
Proof. vm_compute. reflexivity. Qed.

Lemma getParity_even (r : Z) :
  0 <= r < 256 -> i8080_getParity r = c_bool (even_parity r).
Proof.
  intros Hr. apply Z.eqb_eq.
  exact (all_bytes_spec _ getParity_bytes r Hr).
Qed.

(** What the parity flag holds once [P_FLAG = PARITY(x)] has run on a value
    [x] that was converted to a byte. *)
Lemma parity_flag_of_byte (x : Z) :
  uns8 (PARITY (uns8 x)) = c_bool (even_parity (uns8 x)).
Proof.
  unfold PARITY. rewrite getParity_even by apply uns8_range.
  apply uns8_c_bool.
Qed.

(** The low byte of a 16-bit work value, stored in an 8-bit register. *)
Lemma low_byte_of_work16 (x : Z) : uns8 (Z.land (uns16 x) 0xff) = x mod 256.
Proof.
  unfold uns8, uns16. rewrite <- !Z.land_assoc.
  change (Z.land 0xffff (Z.land 0xff 0xff)) with (Z.ones 8).
  now rewrite Z.land_ones.
Qed.

(** C8: on every 8-bit value the nibble fold through 0x6996 answers 1
    exactly when the number of set bits is even.  ADD, ADC, SUB and SBB
    leave in A the sum or difference of the old A, the operand and, for ADC
    and SBB, the carry flag, modulo 256; ANA, ORA and XRA leave the bitwise
    and, or, exclusive or of the old A and the operand, modulo 256; the
    parity flag after each is the even-parity predicate of that new A.
    After CMP it is that of the low byte of the difference, which is not
    stored; after INR and DCR that of the new value of the operand. *)
Theorem parity_flag_is_even_parity W (s : machine W) (r v : Z) :
  0 <= r < 256 ->
  i8080_getParity r = c_bool (even_parity r) /\
  (i8080_getParity r = 1 <-> Nat.Even (popcount8 r)) /\
  Reg.P_FLAG (ADD v s) = c_bool (even_parity (Reg.A (ADD v s))) /\
  Reg.P_FLAG (ADC v s) = c_bool (even_parity (Reg.A (ADC v s))) /\
  Reg.P_FLAG (SUB v s) = c_bool (even_parity (Reg.A (SUB v s))) /\
  Reg.P_FLAG (SBB v s) = c_bool (even_parity (Reg.A (SBB v s))) /\
  Reg.P_FLAG (ANA v s) = c_bool (even_parity (Reg.A (ANA v s))) /\
  Reg.P_FLAG (ORA v s) = c_bool (even_parity (Reg.A (ORA v s))) /\
  Reg.P_FLAG (XRA v s) = c_bool (even_parity (Reg.A (XRA v s))) /\
  Reg.P_FLAG (CMP v s) = c_bool (even_parity ((Reg.A s - v) mod 256)) /\
  Reg.P_FLAG (snd (INR v s)) = c_bool (even_parity (fst (INR v s))) /\
  fst (INR v s) = (v + 1) mod 256 /\
  Reg.P_FLAG (snd (DCR v s)) = c_bool (even_parity (fst (DCR v s))) /\
  fst (DCR v s) = (v - 1) mod 256 /\
  Reg.A (ADD v s) = (Reg.A s + v) mod 256 /\
  Reg.A (ADC v s) = (Reg.A s + v + Reg.C_FLAG s) mod 256 /\
  Reg.A (SUB v s) = (Reg.A s - v) mod 256 /\
  Reg.A (SBB v s) = (Reg.A s - v - Reg.C_FLAG s) mod 256 /\
  Reg.A (ANA v s) = Z.land (Reg.A s) v mod 256 /\
  Reg.A (ORA v s) = Z.lor (Reg.A s) v mod 256 /\
  Reg.A (XRA v s) = Z.lxor (Reg.A s) v mod 256 /\
  Reg.A (CMP v s) = Reg.A s /\
  Reg.P_FLAG (ADD v s) = c_bool (even_parity ((Reg.A s + v) mod 256)) /\
  Reg.P_FLAG (ADC v s)
    = c_bool (even_parity ((Reg.A s + v + Reg.C_FLAG s) mod 256)) /\
  Reg.P_FLAG (SUB v s) = c_bool (even_parity ((Reg.A s - v) mod 256)) /\
  Reg.P_FLAG (SBB v s)
    = c_bool (even_parity ((Reg.A s - v - Reg.C_FLAG s) mod 256)) /\
  Reg.P_FLAG (ANA v s) = c_bool (even_parity (Z.land (Reg.A s) v mod 256)) /\
  Reg.P_FLAG (ORA v s) = c_bool (even_parity (Z.lor (Reg.A s) v mod 256)) /\
  Reg.P_FLAG (XRA v s) = c_bool (even_parity (Z.lxor (Reg.A s) v mod 256)) /\
  Reg.P_FLAG (snd (INR v s)) = c_bool (even_parity ((v + 1) mod 256)) /\
  Reg.P_FLAG (snd (DCR v s)) = c_bool (even_parity ((v - 1) mod 256)).
Proof.
  intros Hr.
  split; [now apply getParity_even|].
  split.
  { rewrite getParity_even by assumption. unfold even_parity.
    rewrite <- Nat.even_spec. destruct (Nat.even (popcount8 r)); cbn; intuition discriminate. }
  assert (Hadd : Reg.A (ADD v s) = (Reg.A s + v) mod 256)
    by exact (low_byte_of_work16 (Reg.A s + v)).
  assert (Hadc : Reg.A (ADC v s) = (Reg.A s + v + Reg.C_FLAG s) mod 256)
    by exact (low_byte_of_work16 (Reg.A s + v + Reg.C_FLAG s)).
  assert (Hsub : Reg.A (SUB v s) = (Reg.A s - v) mod 256)
    by exact (low_byte_of_work16 (Reg.A s - v)).
  assert (Hsbb : Reg.A (SBB v s) = (Reg.A s - v - Reg.C_FLAG s) mod 256)
    by exact (low_byte_of_work16 (Reg.A s - v - Reg.C_FLAG s)).
  assert (Hana : Reg.A (ANA v s) = Z.land (Reg.A s) v mod 256)
    by exact (uns8_mod (Z.land (Reg.A s) v)).
  assert (Hora : Reg.A (ORA v s) = Z.lor (Reg.A s) v mod 256)
    by exact (uns8_mod (Z.lor (Reg.A s) v)).
  assert (Hxra : Reg.A (XRA v s) = Z.lxor (Reg.A s) v mod 256)
    by exact (uns8_mod (Z.lxor (Reg.A s) v)).
  assert (Hinr : fst (INR v s) = (v + 1) mod 256) by exact (uns8_mod (v + 1)).
  assert (Hdcr : fst (DCR v s) = (v - 1) mod 256) by exact (uns8_mod (v - 1)).
  assert (Padd : Reg.P_FLAG (ADD v s) = c_bool (even_parity (Reg.A (ADD v s))))
    by apply parity_flag_of_byte.
  assert (Padc : Reg.P_FLAG (ADC v s) = c_bool (even_parity (Reg.A (ADC v s))))
    by apply parity_flag_of_byte.
  assert (Psub : Reg.P_FLAG (SUB v s) = c_bool (even_parity (Reg.A (SUB v s))))
    by apply parity_flag_of_byte.
  assert (Psbb : Reg.P_FLAG (SBB v s) = c_bool (even_parity (Reg.A (SBB v s))))
    by apply parity_flag_of_byte.
  assert (Pana : Reg.P_FLAG (ANA v s) = c_bool (even_parity (Reg.A (ANA v s))))
    by apply parity_flag_of_byte.
  assert (Pora : Reg.P_FLAG (ORA v s) = c_bool (even_parity (Reg.A (ORA v s))))
    by apply parity_flag_of_byte.
  assert (Pxra : Reg.P_FLAG (XRA v s) = c_bool (even_parity (Reg.A (XRA v s))))
    by apply parity_flag_of_byte.
  assert (Pinr : Reg.P_FLAG (snd (INR v s)) = c_bool (even_parity (fst (INR v s))))
    by apply parity_flag_of_byte.
  assert (Pdcr : Reg.P_FLAG (snd (DCR v s)) = c_bool (even_parity (fst (DCR v s))))
    by apply parity_flag_of_byte.
  assert (Pcmp : Reg.P_FLAG (CMP v s) = c_bool (even_parity ((Reg.A s - v) mod 256))).
  { change (Reg.P_FLAG (CMP v s))
      with (uns8 (PARITY (Z.land (uns16 (Reg.A s - v)) 0xff))).
    assert (Hlow : Z.land (uns16 (Reg.A s - v)) 0xff = uns8 (Reg.A s - v)).
    { unfold uns16, uns8. now rewrite <- Z.land_assoc. }
    rewrite Hlow, parity_flag_of_byte. now rewrite uns8_mod. }
  repeat split; try assumption.
  - now rewrite <- Hadd.
  - now rewrite <- Hadc.
  - now rewrite <- Hsub.
  - now rewrite <- Hsbb.
  - now rewrite <- Hana.
  - now rewrite <- Hora.
  - now rewrite <- Hxra.
  - now rewrite <- Hinr.
  - now rewrite <- Hdcr.
Qed.

Lemma parity_flag_is_even_parity_witness :
  i8080_getParity 0x9B = c_bool (even_parity 0x9B) /\
  (i8080_getParity 0x9B = 1 <-> Nat.Even (popcount8 0x9B)) /\
  Reg.P_FLAG (ADD 0x27 alu_demo) = c_bool (even_parity (Reg.A (ADD 0x27 alu_demo))) /\
  Reg.P_FLAG (ADC 0x27 alu_demo) = c_bool (even_parity (Reg.A (ADC 0x27 alu_demo))) /\
  Reg.P_FLAG (SUB 0x27 alu_demo) = c_bool (even_parity (Reg.A (SUB 0x27 alu_demo))) /\
  Reg.P_FLAG (SBB 0x27 alu_demo) = c_bool (even_parity (Reg.A (SBB 0x27 alu_demo))) /\
  Reg.P_FLAG (ANA 0x27 alu_demo) = c_bool (even_parity (Reg.A (ANA 0x27 alu_demo))) /\
  Reg.P_FLAG (ORA 0x27 alu_demo) = c_bool (even_parity (Reg.A (ORA 0x27 alu_demo))) /\
  Reg.P_FLAG (XRA 0x27 alu_demo) = c_bool (even_parity (Reg.A (XRA 0x27 alu_demo))) /\
  Reg.P_FLAG (CMP 0x27 alu_demo) = c_bool (even_parity ((Reg.A alu_demo - 0x27) mod 256)) /\
  Reg.P_FLAG (snd (INR 0x27 alu_demo)) = c_bool (even_parity (fst (INR 0x27 alu_demo))) /\
  fst (INR 0x27 alu_demo) = (0x27 + 1) mod 256 /\
  Reg.P_FLAG (snd (DCR 0x27 alu_demo)) = c_bool (even_parity (fst (DCR 0x27 alu_demo))) /\
  fst (DCR 0x27 alu_demo) = (0x27 - 1) mod 256 /\
  Reg.A (ADD 0x27 alu_demo) = (Reg.A alu_demo + 0x27) mod 256 /\
  Reg.A (ADC 0x27 alu_demo) = (Reg.A alu_demo + 0x27 + Reg.C_FLAG alu_demo) mod 256 /\
  Reg.A (SUB 0x27 alu_demo) = (Reg.A alu_demo - 0x27) mod 256 /\
  Reg.A (SBB 0x27 alu_demo) = (Reg.A alu_demo - 0x27 - Reg.C_FLAG alu_demo) mod 256 /\
  Reg.A (ANA 0x27 alu_demo) = Z.land (Reg.A alu_demo) 0x27 mod 256 /\
  Reg.A (ORA 0x27 alu_demo) = Z.lor (Reg.A alu_demo) 0x27 mod 256 /\
  Reg.A (XRA 0x27 alu_demo) = Z.lxor (Reg.A alu_demo) 0x27 mod 256 /\
  Reg.A (CMP 0x27 alu_demo) = Reg.A alu_demo /\
  Reg.P_FLAG (ADD 0x27 alu_demo)
    = c_bool (even_parity ((Reg.A alu_demo + 0x27) mod 256)) /\
  Reg.P_FLAG (ADC 0x27 alu_demo)
    = c_bool (even_parity ((Reg.A alu_demo + 0x27 + Reg.C_FLAG alu_demo) mod 256)) /\
  Reg.P_FLAG (SUB 0x27 alu_demo)
    = c_bool (even_parity ((Reg.A alu_demo - 0x27) mod 256)) /\
  Reg.P_FLAG (SBB 0x27 alu_demo)
    = c_bool (even_parity ((Reg.A alu_demo - 0x27 - Reg.C_FLAG alu_demo) mod 256)) /\
  Reg.P_FLAG (ANA 0x27 alu_demo)
    = c_bool (even_parity (Z.land (Reg.A alu_demo) 0x27 mod 256)) /\
  Reg.P_FLAG (ORA 0x27 alu_demo)
    = c_bool (even_parity (Z.lor (Reg.A alu_demo) 0x27 mod 256)) /\
  Reg.P_FLAG (XRA 0x27 alu_demo)
    = c_bool (even_parity (Z.lxor (Reg.A alu_demo) 0x27 mod 256)) /\
  Reg.P_FLAG (snd (INR 0x27 alu_demo)) = c_bool (even_parity ((0x27 + 1) mod 256)) /\
  Reg.P_FLAG (snd (DCR 0x27 alu_demo)) = c_bool (even_parity ((0x27 - 1) mod 256)).
Proof.
  apply (parity_flag_is_even_parity flat_host alu_demo 0x9B 0x27). lia.
Defined.

(** ** Half carry *)

Lemma half_carry_bytes :
  all_bytes (fun a => all_bytes (fun v =>
    half_carry_check a v 0 && half_carry_check a v 1)) = true.
Proof. vm_compute. reflexivity. Qed.

Lemma half_carry_check_ok (a v c : Z) :
  0 <= a < 256 -> 0 <= v < 256 -> 0 <= c <= 1 -> half_carry_check a v c = true.
Proof.
  intros Ha Hv Hc.
  pose proof (all_bytes_spec _ (all_bytes_spec _ half_carry_bytes a Ha) v Hv) as Hav.
  cbv beta in Hav. apply andb_true_iff in Hav. destruct Hav as [H0 H1].
  assert (Hcase : c = 0 \/ c = 1) by lia.
  destruct Hcase as [->| ->]; assumption.
Qed.

(** The index the macros compute, cut to three bits, is the index of the
    prose, for any three integers. *)
Lemma hc_index_bit3 (a v r : Z) : Z.land (hc_index a v r) 0x7 = bit3_index a v r.
Proof.
  unfold hc_index, bit3_index.
  rewrite !Z.land_lor_distr_l, !Z.shiftr_land, <- !Z.land_assoc.
  reflexivity.
Qed.

(** C5: for an 8-bit accumulator, an 8-bit operand and a carry flag of 0 or
    1, the half-carry flag after ADD and ADC is the carry out of bit 3 of
    the 4-bit addition, after SUB, SBB and CMP it is the complement of the
    borrow out of bit 3; the add table at the index built from bit 3 of the
    accumulator, the operand and the result is that carry, the subtract
    table at that index is that borrow, and the macros use that index. *)
Theorem half_carry_is_bit3_carry W (s : machine W) (v : Z) :
  0 <= Reg.A s < 256 -> 0 <= v < 256 -> 0 <= Reg.C_FLAG s <= 1 ->
  let a := Reg.A s in
  let c := Reg.C_FLAG s in
  Reg.H_FLAG (ADD v s) = c_bool (carry_out_of_bit3 a v 0) /\
  Reg.H_FLAG (ADC v s) = c_bool (carry_out_of_bit3 a v c) /\
  Reg.H_FLAG (SUB v s) = c_bool (negb (borrow_out_of_bit3 a v 0)) /\
  Reg.H_FLAG (SBB v s) = c_bool (negb (borrow_out_of_bit3 a v c)) /\
  Reg.H_FLAG (CMP v s) = c_bool (negb (borrow_out_of_bit3 a v 0)) /\
  at_index half_carry_table (bit3_index a v (a + v + c))
    = c_bool (carry_out_of_bit3 a v c) /\
  at_index sub_half_carry_table (bit3_index a v (a - v - c))
    = c_bool (borrow_out_of_bit3 a v c) /\
  (forall result, Z.land (hc_index a v result) 0x7 = bit3_index a v result).
Proof.
  intros Ha Hv Hc a c.
  assert (Hpart : forall k, 0 <= k <= 1 ->
            add_half_carry a v k = c_bool (carry_out_of_bit3 a v k) /\
            sub_half_carry a v k = c_bool (negb (borrow_out_of_bit3 a v k)) /\
            at_index half_carry_table (bit3_index a v (a + v + k))
              = c_bool (carry_out_of_bit3 a v k) /\
            at_index sub_half_carry_table (bit3_index a v (a - v - k))
              = c_bool (borrow_out_of_bit3 a v k)).
  { intros k Hk. pose proof (half_carry_check_ok a v k Ha Hv Hk) as Hchk.
    unfold half_carry_check in Hchk.
    rewrite !andb_true_iff, !Z.eqb_eq in Hchk. tauto. }
  destruct (Hpart 0 ltac:(lia)) as (Hadd0 & Hsub0 & _ & _).
  destruct (Hpart c Hc) as (Haddc & Hsubc & Htab & Hsubtab).
  assert (Hz : forall x, x + 0 = x) by (intros; lia).
  assert (Hm : forall x, x - 0 = x) by (intros; lia).
  unfold add_half_carry in Hadd0. unfold sub_half_carry in Hsub0.
  rewrite Hz in Hadd0. rewrite Hm in Hsub0.
  repeat split; try assumption.
  apply hc_index_bit3.
Qed.

Lemma half_carry_is_bit3_carry_witness :
  let a := Reg.A alu_demo in
  let c := Reg.C_FLAG alu_demo in
  Reg.H_FLAG (ADD 0x27 alu_demo) = c_bool (carry_out_of_bit3 a 0x27 0) /\
  Reg.H_FLAG (ADC 0x27 alu_demo) = c_bool (carry_out_of_bit3 a 0x27 c) /\
  Reg.H_FLAG (SUB 0x27 alu_demo) = c_bool (negb (borrow_out_of_bit3 a 0x27 0)) /\
  Reg.H_FLAG (SBB 0x27 alu_demo) = c_bool (negb (borrow_out_of_bit3 a 0x27 c)) /\
  Reg.H_FLAG (CMP 0x27 alu_demo) = c_bool (negb (borrow_out_of_bit3 a 0x27 0)) /\
  at_index half_carry_table (bit3_index a 0x27 (a + 0x27 + c))
    = c_bool (carry_out_of_bit3 a 0x27 c) /\
  at_index sub_half_carry_table (bit3_index a 0x27 (a - 0x27 - c))
    = c_bool (borrow_out_of_bit3 a 0x27 c) /\
  (forall result, Z.land (hc_index a 0x27 result) 0x7 = bit3_index a 0x27 result).
Proof.
  apply (half_carry_is_bit3_carry flat_host alu_demo 0x27);
    vm_compute; split; (discriminate || reflexivity).
Defined.

(** ** CMA *)

Lemma complement_bytes :
  all_bytes (fun a => uns8 (Z.lxor a 0xff) =? 255 - a) = true.
Proof. vm_compute. reflexivity. Qed.

Lemma testbit_complement (a i : Z) :
  0 <= i < 8 -> Z.testbit (uns8 (Z.lxor a 0xff)) i = negb (Z.testbit a i).
Proof.
  intros Hi. rewrite testbit_uns8, Z.lxor_spec by lia.
  change 0xff with (Z.ones 8). rewrite Z.testbit_ones_nonneg by lia.
  replace (i <? 8) with true by (symmetry; apply Z.ltb_lt; lia).
  now rewrite xorb_true_r, andb_true_r.
Qed.

(** C10: when the byte at PC is 0x2F, [i8080_instruction] costs 4 cycles,
    turns every one of the eight bits of A over (255 - A for an 8-bit A),
    moves PC on by one modulo 65536 and leaves the flag fields, the packed F,
    BC, DE, HL, SP, the latch, [M] and the host as they were. *)
Theorem cma_complements_a_only W (HAL : i8080_hal W) (s : machine W) :
  RD_BYTE s (Reg.PC s) = 0x2F ->
  let s' := snd (i8080_instruction s) in
  fst (i8080_instruction s) = 4 /\
  (forall i, 0 <= i < 8 -> Z.testbit (Reg.A s') i = negb (Z.testbit (Reg.A s) i)) /\
  0 <= Reg.A s' < 256 /\
  (0 <= Reg.A s < 256 -> Reg.A s' = 255 - Reg.A s) /\
  f (cpu s') = f (cpu s) /\
  Reg.F s' = Reg.F s /\
  bc (cpu s') = bc (cpu s) /\
  de (cpu s') = de (cpu s) /\
  hl (cpu s') = hl (cpu s) /\
  sp (cpu s') = sp (cpu s) /\
  iff (cpu s') = iff (cpu s) /\
  Reg.PC s' = (Reg.PC s + 1) mod 65536 /\
  M s' = M s /\
  host s' = host s.
Proof.
  intros Hfetch s'.
  assert (Hstep : i8080_instruction s
                  = (4, Reg.set_A (Z.lxor (Reg.A s) 0xff)
                          (Reg.set_PC (Reg.PC s + 1) s))).
  { unfold i8080_instruction, RD_BYTE_PC_inc. rewrite Hfetch. reflexivity. }
  subst s'. rewrite Hstep. cbn [fst snd].
  change (Reg.A (Reg.set_A (Z.lxor (Reg.A s) 0xff) (Reg.set_PC (Reg.PC s + 1) s)))
    with (uns8 (Z.lxor (Reg.A s) 0xff)).
  split; [reflexivity|].
  split; [intros i Hi; now apply testbit_complement|].
  split; [apply uns8_range|].
  split.
  { intros Ha. apply Z.eqb_eq.
    exact (all_bytes_spec _ complement_bytes (Reg.A s) Ha). }
  repeat split.
  change (Reg.PC (Reg.set_A (Z.lxor (Reg.A s) 0xff) (Reg.set_PC (Reg.PC s + 1) s)))
    with (get_w (set_w (Reg.PC s + 1))).
  now rewrite get_w_set_w, uns16_mod.
Qed.

Lemma cma_complements_a_only_witness :
  let s' := snd (i8080_instruction cma_demo) in
  fst (i8080_instruction cma_demo) = 4 /\
  (forall i, 0 <= i < 8 ->
     Z.testbit (Reg.A s') i = negb (Z.testbit (Reg.A cma_demo) i)) /\
  0 <= Reg.A s' < 256 /\
  (0 <= Reg.A cma_demo < 256 -> Reg.A s' = 255 - Reg.A cma_demo) /\
  f (cpu s') = f (cpu cma_demo) /\
  Reg.F s' = Reg.F cma_demo /\
  bc (cpu s') = bc (cpu cma_demo) /\
  de (cpu s') = de (cpu cma_demo) /\
  hl (cpu s') = hl (cpu cma_demo) /\
  sp (cpu s') = sp (cpu cma_demo) /\
  iff (cpu s') = iff (cpu cma_demo) /\
  Reg.PC s' = (Reg.PC cma_demo + 1) mod 65536 /\
  M s' = M cma_demo /\
  host s' = host cma_demo.
Proof.
  apply (cma_complements_a_only flat_host flat_hal cma_demo). reflexivity.
Defined.

(** ** The packed flags byte *)


(** Which instructions write the packed F at all. *)
Section FrameF.
Context {W : Type} {HAL : i8080_hal W}.
Implicit Type s : machine W.








End FrameF.




(** ** Decimal adjust *)

(** The code and the prose agree on DAA in every state: the extra
    [P_FLAG = PARITY(A)] of the code repeats what [ADD] has just stored. *)
Lemma daa_as_prose W (HAL : i8080_hal W) (t : machine W) :
  i8080_execute 0x27 t = (4, DAA_prose t).
Proof.
  change (i8080_execute 0x27 t) with (execute_exact 0x27 t).
  cbv beta iota delta [execute_exact DAA_prose]. cbv zeta.
  rewrite !Z.gtb_ltb, Z.geb_leb. f_equal.
  destruct (truth (Reg.H_FLAG t)), (9 <? Z.land (Reg.A t) 0x0f),
           (truth (Reg.C_FLAG t)), (9 <? Z.shiftr (Reg.A t) 4),
           (9 <=? Z.shiftr (Reg.A t) 4);
    cbn [orb andb];
    first [ reflexivity
          | unfold Reg.set_C_FLAG, on_flags, with_carry;
            rewrite uns8_idem; reflexivity ].
Qed.

(** C7: after [i8080_init] and [i8080_jump(0)], on a host whose memory holds
    3E 9B 27 from address 0, the first instruction (MVI A,0x9B) costs 7
    cycles and the second (DAA) 4, 11 together, and they leave A = 0x01,
    C = 1, H = 1, Z = 0, P = 0, S = 0; and in every state DAA is the prose
    algorithm: add and carry from H, C and the nibbles of A, then ADD(add),
    then C overwritten with that carry. *)
Theorem daa_scenario_and_algorithm W (HAL : i8080_hal W) (s : machine W) :
  RD_BYTE s 0 = 0x3E -> RD_BYTE s 1 = 0x9B -> RD_BYTE s 2 = 0x27 ->
  let s0 := i8080_jump 0 (i8080_init s) in
  let r1 := i8080_instruction s0 in
  let r2 := i8080_instruction (snd r1) in
  fst r1 = 7 /\ fst r2 = 4 /\ fst (run 2 s0) = 11 /\ snd (run 2 s0) = snd r2 /\
  Reg.A (snd r2) = 0x01 /\
  Reg.C_FLAG (snd r2) = 1 /\ Reg.H_FLAG (snd r2) = 1 /\ Reg.Z_FLAG (snd r2) = 0 /\
  Reg.P_FLAG (snd r2) = 0 /\ Reg.S_FLAG (snd r2) = 0 /\
  (forall t : machine W, i8080_execute 0x27 t = (4, DAA_prose t)).
Proof.
  intros Hb0 Hb1 Hb2 s0 r1 r2.
  assert (Hr1 : r1 = (7, Reg.set_A 0x9B (Reg.set_PC 2 s0))).
  { subst r1. unfold i8080_instruction, RD_BYTE_PC_inc.
    change (RD_BYTE s0 (Reg.PC s0)) with (RD_BYTE s 0). rewrite Hb0.
    change (i8080_execute 0x3E (Reg.set_PC (Reg.PC s0 + 1) s0))
      with (7, Reg.set_A (RD_BYTE s 1) (Reg.set_PC 2 s0)).
    now rewrite Hb1. }
  assert (Hr2 : r2 = i8080_execute 0x27 (Reg.set_PC 3 (Reg.set_A 0x9B (Reg.set_PC 2 s0)))).
  { subst r2. rewrite Hr1. cbn [snd].
    unfold i8080_instruction, RD_BYTE_PC_inc.
    change (RD_BYTE _ _) with (RD_BYTE s 2). now rewrite Hb2. }
  assert (Hrun : run 2 s0 = (fst r1 + (fst r2 + 0), snd r2)).
  { cbn [run]. fold r1. destruct r1 as [c1 s1]. cbn [snd] in r2. fold r2.
    now destruct r2 as [c2 s2]. }
  rewrite Hrun. cbn [fst snd]. rewrite Hr2, Hr1. cbn [fst].
  repeat split. apply daa_as_prose.
Qed.

Lemma daa_scenario_and_algorithm_witness :
  let r1 := i8080_instruction daa_demo in
  let r2 := i8080_instruction (snd r1) in
  fst r1 = 7 /\ fst r2 = 4 /\ fst (run 2 daa_demo) = 11 /\
  snd (run 2 daa_demo) = snd r2 /\
  Reg.A (snd r2) = 0x01 /\
  Reg.C_FLAG (snd r2) = 1 /\ Reg.H_FLAG (snd r2) = 1 /\ Reg.Z_FLAG (snd r2) = 0 /\
  Reg.P_FLAG (snd r2) = 0 /\ Reg.S_FLAG (snd r2) = 0 /\
  (forall t : machine flat_host, i8080_execute 0x27 t = (4, DAA_prose t)).
Proof.
  apply (daa_scenario_and_algorithm flat_host flat_hal
           (power_on (host_with 0 [0x3E; 0x9B; 0x27]))); reflexivity.
Defined.

(** ** Well-formed machines

    What the code stores in a flag is always 0 or 1 and what it stores in a
    register half always fits a byte, so the machines a host can bring about
    satisfy the range hypotheses used above. *)

Create HintDb ok discriminated.

Lemma byte_ok_uns8 v : byte_ok (uns8 v).
Proof. apply uns8_range. Qed.
Lemma pair_ok_set_w v : pair_ok (set_w v).
Proof. split; apply byte_ok_uns8. Qed.
#[local] Hint Resolve byte_ok_uns8 pair_ok_set_w : ok.

Lemma flag_ok_c_bool b : flag_ok (uns8 (c_bool b)).
Proof. destruct b; [now right | now left]. Qed.
Lemma flag_ok_ne0 x : flag_ok (uns8 (ne0 x)).
Proof. apply flag_ok_c_bool. Qed.
Lemma flag_ok_c_not x : flag_ok (uns8 (c_not x)).
Proof. apply flag_ok_c_bool. Qed.
Lemma flag_ok_PARITY x : flag_ok (uns8 (PARITY x)).
Proof. apply flag_ok_c_bool. Qed.
Lemma flag_ok_0 : flag_ok (uns8 0).
Proof. now left. Qed.
Lemma flag_ok_1 : flag_ok (uns8 1).
Proof. now right. Qed.
Lemma flag_ok_if (b : bool) x y :
  flag_ok (uns8 x) -> flag_ok (uns8 y) -> flag_ok (uns8 (if b then x else y)).
Proof. now destruct b. Qed.
Lemma flag_ok_again x : flag_ok x -> flag_ok (uns8 x).
Proof. intros [->| ->]; [now left | now right]. Qed.
Lemma flag_ok_bit0 a : flag_ok (uns8 (Z.land a 0x01)).
Proof.
  change 0x01 with (Z.ones 1). rewrite Z.land_ones by lia.
  change (2 ^ 1) with 2.
  assert (Hm : 0 <= a mod 2 < 2) by (apply Z.mod_pos_bound; lia).
  apply flag_ok_again. unfold flag_ok. lia.
Qed.
Lemma flag_ok_table (table : list Z) (i : Z) :
  Forall flag_ok table -> flag_ok (uns8 (at_index table i)).
Proof.
  intros Htable. apply flag_ok_again. unfold at_index.
  generalize (Z.to_nat i). induction Htable as [|x l Hx _ IH]; intros [|n]; cbn.
  - now left.
  - now left.
  - exact Hx.
  - apply IH.
Qed.
Lemma flag_ok_add_table i : flag_ok (uns8 (at_index half_carry_table i)).
Proof. apply flag_ok_table. repeat constructor; (now left) || (now right). Qed.
#[local] Hint Resolve flag_ok_c_bool flag_ok_ne0 flag_ok_c_not flag_ok_PARITY
  flag_ok_0 flag_ok_1 flag_ok_if flag_ok_bit0 flag_ok_add_table : ok.

(** Closes the goals where a writer touches one field and the rest is
    carried over. *)
Ltac ok_frame :=
  intros; unfold machine_ok, flags_ok, pair_ok, byte_ok in *;
  repeat match goal with H : _ /\ _ |- _ => destruct H end;
  repeat split; first [assumption | apply uns8_range].

Section Preservation.
Context {W : Type} {HAL : i8080_hal W}.
Implicit Type s : machine W.

Lemma ok_on_host g s : machine_ok s -> machine_ok (on_host g s).
Proof. exact (fun H => H). Qed.

Lemma ok_set_A v s : machine_ok s -> machine_ok (Reg.set_A v s).
Proof. ok_frame. Qed.
Lemma ok_set_F v s : machine_ok s -> machine_ok (Reg.set_F v s).
Proof. ok_frame. Qed.
Lemma ok_set_AF v s : machine_ok s -> machine_ok (Reg.set_AF v s).
Proof. ok_frame. Qed.
Lemma ok_set_BC v s : machine_ok s -> machine_ok (Reg.set_BC v s).
Proof. ok_frame. Qed.
Lemma ok_set_DE v s : machine_ok s -> machine_ok (Reg.set_DE v s).
Proof. ok_frame. Qed.
Lemma ok_set_HL v s : machine_ok s -> machine_ok (Reg.set_HL v s).
Proof. ok_frame. Qed.
Lemma ok_set_SP v s : machine_ok s -> machine_ok (Reg.set_SP v s).
Proof. ok_frame. Qed.
Lemma ok_set_PC v s : machine_ok s -> machine_ok (Reg.set_PC v s).
Proof. ok_frame. Qed.
Lemma ok_set_IFF v s : machine_ok s -> machine_ok (Reg.set_IFF v s).
Proof. ok_frame. Qed.
Lemma ok_set_C_FLAG v s :
  flag_ok (uns8 v) -> machine_ok s -> machine_ok (Reg.set_C_FLAG v s).
Proof. ok_frame. Qed.
Lemma ok_set_P_FLAG v s :
  flag_ok (uns8 v) -> machine_ok s -> machine_ok (Reg.set_P_FLAG v s).
Proof. ok_frame. Qed.
Lemma ok_set_H_FLAG v s :
  flag_ok (uns8 v) -> machine_ok s -> machine_ok (Reg.set_H_FLAG v s).
Proof. ok_frame. Qed.
Lemma ok_set_Z_FLAG v s :
  flag_ok (uns8 v) -> machine_ok s -> machine_ok (Reg.set_Z_FLAG v s).
Proof. ok_frame. Qed.
Lemma ok_set_S_FLAG v s :
  flag_ok (uns8 v) -> machine_ok s -> machine_ok (Reg.set_S_FLAG v s).
Proof. ok_frame. Qed.
Lemma ok_set_UN1_FLAG v s : machine_ok s -> machine_ok (Reg.set_UN1_FLAG v s).
Proof. ok_frame. Qed.
Lemma ok_set_UN3_FLAG v s : machine_ok s -> machine_ok (Reg.set_UN3_FLAG v s).
Proof. ok_frame. Qed.
Lemma ok_set_UN5_FLAG v s : machine_ok s -> machine_ok (Reg.set_UN5_FLAG v s).
Proof. ok_frame. Qed.

#[local] Hint Resolve ok_on_host ok_set_A ok_set_F ok_set_AF ok_set_BC ok_set_DE
  ok_set_HL ok_set_SP ok_set_PC ok_set_IFF ok_set_C_FLAG ok_set_P_FLAG
  ok_set_H_FLAG ok_set_Z_FLAG ok_set_S_FLAG ok_set_UN1_FLAG ok_set_UN3_FLAG
  ok_set_UN5_FLAG : ok.

Lemma ok_carry_again s : machine_ok s -> flag_ok (uns8 (uns8 (Reg.C_FLAG s))).
Proof. intros ((Hc & _) & _). now do 2 apply flag_ok_again. Qed.

Lemma ok_set_REG i v s : machine_ok s -> machine_ok (set_REG i v s).
Proof.
  intros Hs. unfold set_REG.
  repeat match goal with
         | |- context [match ?x with _ => _ end] => destruct x
         end; try assumption; ok_frame.
Qed.

Lemma ok_set_PAIR i v s : machine_ok s -> machine_ok (set_PAIR i v s).
Proof.
  intros Hs. unfold set_PAIR.
  repeat match goal with
         | |- context [match ?x with _ => _ end] => destruct x
         end; try assumption; ok_frame.
Qed.

Lemma ok_POP set_reg s :
  (forall v t, machine_ok t -> machine_ok (set_reg v t)) ->
  machine_ok s -> machine_ok (POP set_reg s).
Proof. intros Hset Hs. unfold POP. auto with ok. Qed.

Lemma ok_PUSH reg s : machine_ok s -> machine_ok (PUSH reg s).
Proof. intros Hs. unfold PUSH, WR_WORD. auto with ok. Qed.

#[local] Hint Resolve ok_carry_again ok_set_REG ok_set_PAIR ok_POP ok_PUSH : ok.

Lemma ok_WR_BYTE a v s : machine_ok s -> machine_ok (WR_BYTE a v s).
Proof. exact (fun H => H). Qed.
Lemma ok_WR_WORD a v s : machine_ok s -> machine_ok (WR_WORD a v s).
Proof. exact (fun H => H). Qed.
#[local] Hint Resolve ok_WR_BYTE ok_WR_WORD : ok.

Lemma ok_ADD v s : machine_ok s -> machine_ok (ADD v s).
Proof. intros Hs. unfold ADD. auto 10 with ok. Qed.
Lemma ok_ADC v s : machine_ok s -> machine_ok (ADC v s).
Proof. intros Hs. unfold ADC. auto 10 with ok. Qed.
Lemma ok_SUB v s : machine_ok s -> machine_ok (SUB v s).
Proof. intros Hs. unfold SUB. auto 10 with ok. Qed.
Lemma ok_SBB v s : machine_ok s -> machine_ok (SBB v s).
Proof. intros Hs. unfold SBB. auto 10 with ok. Qed.
Lemma ok_CMP v s : machine_ok s -> machine_ok (CMP v s).
Proof. intros Hs. unfold CMP. auto 10 with ok. Qed.
Lemma ok_ANA v s : machine_ok s -> machine_ok (ANA v s).
Proof. intros Hs. unfold ANA. auto 10 with ok. Qed.
Lemma ok_XRA v s : machine_ok s -> machine_ok (XRA v s).
Proof. intros Hs. unfold XRA. auto 10 with ok. Qed.
Lemma ok_ORA v s : machine_ok s -> machine_ok (ORA v s).
Proof. intros Hs. unfold ORA. auto 10 with ok. Qed.
Lemma ok_DAD v s : machine_ok s -> machine_ok (DAD v s).
Proof. intros Hs. unfold DAD. auto 10 with ok. Qed.
Lemma ok_CALL s : machine_ok s -> machine_ok (CALL s).
Proof. intros Hs. unfold CALL. auto 10 with ok. Qed.
Lemma ok_RST a s : machine_ok s -> machine_ok (RST a s).
Proof. intros Hs. unfold RST. auto 10 with ok. Qed.
Lemma ok_store_bit flag bit s : machine_ok s -> machine_ok (store_bit flag bit s).
Proof. intros Hs. unfold store_bit. destruct (truth flag); auto with ok. Qed.
#[local] Hint Resolve ok_store_bit : ok.
Lemma ok_store_flags s : machine_ok s -> machine_ok (i8080_store_flags s).
Proof. intros Hs. unfold i8080_store_flags. auto 10 with ok. Qed.
Lemma ok_retrieve_flags s : machine_ok s -> machine_ok (i8080_retrieve_flags s).
Proof. intros Hs. unfold i8080_retrieve_flags. auto 10 with ok. Qed.
#[local] Hint Resolve ok_ADD ok_ADC ok_SUB ok_SBB ok_CMP ok_ANA ok_XRA ok_ORA
  ok_DAD ok_CALL ok_RST ok_store_flags ok_retrieve_flags : ok.

Lemma ok_init s : machine_ok s -> machine_ok (i8080_init s).
Proof. intros Hs. unfold i8080_init. auto 12 with ok. Qed.
Lemma ok_jump a s : machine_ok s -> machine_ok (i8080_jump a s).
Proof. intros Hs. unfold i8080_jump. auto with ok. Qed.
Lemma ok_power_on (w : W) : machine_ok (power_on w).
Proof. repeat split; cbn; (lia || now left). Qed.


Lemma ok_execute_exact op s :
  machine_ok s -> machine_ok (snd (execute_exact op s)).
Proof.
  intros Hs. unfold execute_exact.
  destruct op as [|p|p]; cbv beta iota; [assumption| |assumption].
  switch_cases; run_body; try assumption; auto 12 with ok.
Qed.

Lemma ok_execute_alu op s r :
  machine_ok s -> execute_alu op s = Some r -> machine_ok (snd r).
Proof.
  intros Hs. unfold execute_alu. masked_switch.
  all: intros [= <-]; cbn [snd]; auto with ok.
Qed.

Lemma ok_execute_single op s r :
  machine_ok s -> execute_single op s = Some r -> machine_ok (snd r).
Proof.
  intros Hs. unfold execute_single. masked_switch.
  all: run_body; try destruct (truth _).
  all: intros [= <-]; cbn [snd]; auto 12 with ok.
Qed.

Lemma ok_execute_pair op s r :
  machine_ok s -> execute_pair op s = Some r -> machine_ok (snd r).
Proof.
  intros Hs. unfold execute_pair. masked_switch.
  all: run_body; intros [= <-]; cbn [snd]; auto 12 with ok.
Qed.

Lemma ok_execute_mov op s :
  machine_ok s -> machine_ok (snd (execute_mov op s)).
Proof.
  intros Hs. unfold execute_mov.
  destruct (Z.land op 0xC0 =? 0x40); [|assumption].
  destruct (DEST op =? 6); [|destruct (SOURCE op =? 6)]; cbn [snd]; auto with ok.
Qed.

(** Every value the code stores in a register is a byte and every value it
    stores in a flag is 0 or 1: an instruction keeps the machine well
    formed, whatever [int] is decoded. *)
Theorem ok_execute op s :
  machine_ok s -> machine_ok (snd (i8080_execute op s)).
Proof.
  intros Hs. unfold i8080_execute.
  pose proof (ok_execute_exact op s Hs) as Hexact.
  destruct (execute_exact op s) as [cpu_cycles s1]. cbn [snd] in Hexact.
  destruct (negb (cpu_cycles =? 0)); [exact Hexact|].
  destruct (execute_alu op s1) as [r|] eqn:Halu;
    [exact (ok_execute_alu op s1 r Hexact Halu)|].
  destruct (execute_single op s1) as [r|] eqn:Hsingle;
    [exact (ok_execute_single op s1 r Hexact Hsingle)|].
  destruct (execute_pair op s1) as [r|] eqn:Hpair;
    [exact (ok_execute_pair op s1 r Hexact Hpair)|].
  now apply ok_execute_mov.
Qed.

Theorem ok_instruction s :
  machine_ok s -> machine_ok (snd (i8080_instruction s)).
Proof.
  intros Hs. unfold i8080_instruction, RD_BYTE_PC_inc.
  apply ok_execute. auto with ok.
Qed.
End Preservation.

(** Every machine the host can bring about is well formed: the range
    hypotheses of the half-carry theorem hold on all of them. *)
Theorem reachable_ok W (HAL : i8080_hal W) (s : machine W) :
  reachable s -> machine_ok s.
Proof.
  intros Hreach. induction Hreach as [w|s _ IH|addr s _ IH|s _ IH].
  - apply ok_power_on.
  - now apply ok_init.
  - now apply ok_jump.
  - now apply ok_instruction.
Qed.

Corollary reachable_ranges W (HAL : i8080_hal W) (s : machine W) :
  reachable s -> 0 <= Reg.A s < 256 /\ 0 <= Reg.C_FLAG s <= 1.
Proof.
  intros Hreach. destruct (reachable_ok W HAL s Hreach) as ((Hc & _) & (_ & Ha) & _).
  split; [exact Ha|]. destruct Hc as [Hc|Hc]; unfold Reg.C_FLAG; rewrite Hc; lia.
Qed.
